(** * Task routing and plan execution of the multi-agent orchestrator

    A shallow embedding of [orchestrator.py] (class [Orchestrator]),
    the shared state of [base_agent.py] ([AgentMessage], [AgentState],
    [BaseAgent._call_llm], [_build_messages], [decide_next_action],
    [format_result], the tool registry of [ToolUsingAgent]), the
    workflow catalogue of [config.py] and the run entry point and the
    run history of [main_system.py] ([MultiAgentSystem.execute],
    [get_history], [clear_history]).

    Modelling conventions.
    - Python values that reach the orchestrator from outside (decoded
      JSON, worker results, context entries) are terms of [pyval];
      a [dict] with string keys is an association list in insertion
      order, read with [dict_get] as [dict.get] / [dict[...]] do.
      Floats do not occur: in every operation below they would behave
      as an [int] does (hashable, no [get] attribute, not iterable).
    - Text is a [string] of bytes (UTF-8).  [str.lower] is modelled on
      the ASCII letters; the bytes of other characters are kept.  The
      keywords matched against a task are ASCII and none of them ends
      with the letter i or holds the letter k, the only two ASCII
      letters that lower-casing a non-ASCII character can produce, so
      keyword containment is the one Python computes.
    - Mutation of the shared [AgentState], of the orchestrator's usage
      counters and of the outside world is explicit state passing in
      the monad [M]; a raised exception is the left injection and keeps
      the mutations made before it.  [exn] ranges over the subclasses of
      [Exception]; [exn_msg e] is [str(e)].
    - Workers and the chat-completion client are opaque collaborators:
      functions over an abstract environment [Env] that they may read
      and change.  [json.loads] and [repr] are library functions taken
      as parameters.
    - Result dicts are values: a worker does not mutate a dict it
      returned in an earlier step.
    - Wall-clock fields ([timestamp], [execution_time]) are left out;
      nothing below reads them. *)

From Stdlib Require Import ZArith Ascii String.
From stdpp Require Import base option list strings pretty gmap.

Local Open Scope string_scope.
Local Open Scope list_scope.
Local Open Scope Z_scope.
Local Set Warnings "-register-all".

(** ** Python values *)

Inductive pyval : Type :=
| PNone
| PBool (b : bool)
| PInt (z : Z)
| PStr (s : string)
| PList (l : list pyval)
| PDict (d : list (string * pyval)).

Abbreviation pydict := (list (string * pyval)).

(** [d.get(k)] and [d[k]]: the binding of [k], if any. *)
Fixpoint dict_get (k : string) (d : pydict) : option pyval :=
  match d with
  | [] => None
  | (k', v) :: d' => if String.eqb k k' then Some v else dict_get k d'
  end.

(** [d.get(k, dflt)] *)
Definition dict_get_default (k : string) (dflt : pyval) (d : pydict) : pyval :=
  default dflt (dict_get k d).

(** Truth value of an object, as [if x:] and [not x] test it. *)
Definition truthy (v : pyval) : bool :=
  match v with
  | PNone => false
  | PBool b => b
  | PInt z => negb (z =? 0)
  | PStr s => negb (String.eqb s EmptyString)
  | PList l => match l with [] => false | _ => true end
  | PDict d => match d with [] => false | _ => true end
  end.

(** [type(x).__name__] *)
Definition type_name (v : pyval) : string :=
  match v with
  | PNone => "NoneType"
  | PBool _ => "bool"
  | PInt _ => "int"
  | PStr _ => "str"
  | PList _ => "list"
  | PDict _ => "dict"
  end.

(** Exceptions derived from [Exception]: class name and [str(e)]. *)
Record exn : Type := Exn { exn_class : string; exn_msg : string }.

Definition TypeError_not_iterable (v : pyval) : exn :=
  Exn "TypeError" ("'" +:+ type_name v +:+ "' object is not iterable").
Definition TypeError_unhashable (v : pyval) : exn :=
  Exn "TypeError" ("unhashable type: '" +:+ type_name v +:+ "'").
Definition AttributeError_get (v : pyval) : exn :=
  Exn "AttributeError" ("'" +:+ type_name v +:+ "' object has no attribute 'get'").

(** ** Strings: [str.lower] and the [in] test on strings *)

Definition lower_ascii (c : ascii) : ascii :=
  let n := nat_of_ascii c in
  if ((65 <=? n)%nat && (n <=? 90)%nat)%bool then ascii_of_nat (n + 32) else c.

Fixpoint lower (s : string) : string :=
  match s with
  | EmptyString => EmptyString
  | String c s' => String (lower_ascii c) (lower s')
  end.

Fixpoint starts_with (p s : string) : bool :=
  match p, s with
  | EmptyString, _ => true
  | String a p', String b s' => (Ascii.eqb a b && starts_with p' s')%bool
  | String _ _, EmptyString => false
  end.

(** [kw in s] for strings: [kw] occurs in [s] as a contiguous block. *)
Fixpoint contains (kw s : string) : bool :=
  (starts_with kw s ||
   match s with
   | EmptyString => false
   | String _ s' => contains kw s'
   end)%bool.

(** Iterating a string yields its characters as one-character strings. *)
Fixpoint chars (s : string) : list pyval :=
  match s with
  | EmptyString => []
  | String c s' => PStr (String c EmptyString) :: chars s'
  end.

(** ** The workflow catalogue ([config.py]) *)

Record WorkflowTemplate : Type := {
  tpl_name : string;
  tpl_description : string;
  tpl_agents : list string;
  tpl_steps : list pydict
}.

Definition mk_step (agent action : string) : pydict :=
  [("agent", PStr agent); ("action", PStr action)].

Definition WORKFLOW_TEMPLATES : list (string * WorkflowTemplate) :=
  [ ("research_report",
     {| tpl_name := "Research Report";
        tpl_description := "Create a comprehensive research report";
        tpl_agents := ["research"; "data"; "writing"; "qa"];
        tpl_steps := [ mk_step "research" "gather_information";
                       mk_step "data" "analyze_data";
                       mk_step "writing" "create_report";
                       mk_step "qa" "review_quality" ] |});
    ("data_analysis",
     {| tpl_name := "Data Analysis";
        tpl_description := "Analyze dataset and generate insights";
        tpl_agents := ["code"; "data"; "writing"];
        tpl_steps := [ mk_step "code" "load_and_clean_data";
                       mk_step "data" "perform_analysis";
                       mk_step "data" "create_visualizations";
                       mk_step "writing" "summarize_insights" ] |});
    ("code_project",
     {| tpl_name := "Code Project";
        tpl_description := "Generate code with tests and documentation";
        tpl_agents := ["code"; "qa"; "writing"];
        tpl_steps := [ mk_step "code" "generate_code";
                       mk_step "code" "write_tests";
                       mk_step "qa" "code_review";
                       mk_step "writing" "create_documentation" ] |}) ].

(** Lookup in a dict kept as an association list. *)
Fixpoint assoc {A : Type} (k : string) (l : list (string * A)) : option A :=
  match l with
  | [] => None
  | (k', v) :: l' => if String.eqb k k' then Some v else assoc k l'
  end.

(** The keyword table local to [_match_template], in declaration order. *)
Definition keywords : list (string * list string) :=
  [ ("research_report", ["research"; "report"; "analysis"; "study"]);
    ("data_analysis", ["analyze"; "data"; "dataset"; "csv"]);
    ("code_project", ["code"; "build"; "create"; "program"; "script"]) ].

(** [any(kw in task_lower for kw in template_keywords)] *)
Definition any_keyword (task_lower : string) (template_keywords : list string) : bool :=
  existsb (fun kw => contains kw task_lower) template_keywords.

(** The [for] loop of [_match_template] over the keyword table: the
    first entry with a keyword in the task returns the catalogue's
    entry of that name. *)
Fixpoint match_in (templates : list (string * WorkflowTemplate))
    (table : list (string * list string)) (task_lower : string)
    : option WorkflowTemplate :=
  match table with
  | [] => None
  | (template_id, template_keywords) :: table' =>
      if any_keyword task_lower template_keywords
      then assoc template_id templates
      else match_in templates table' task_lower
  end.

Definition _match_template (task : string) : option WorkflowTemplate :=
  match_in WORKFLOW_TEMPLATES keywords (lower task).

(** ** Shared state ([base_agent.py]) *)

Record AgentMessage : Type := {
  sender : string;
  recipient : string;
  content : pyval;
  message_type : string;
  metadata : pyval
}.

(** [AgentMessage.__init__]: [self.metadata = metadata or {}]. *)
Definition new_message (sender recipient : string) (content : pyval)
    (message_type : string) (metadata : pyval) : AgentMessage :=
  {| sender := sender; recipient := recipient; content := content;
     message_type := message_type;
     metadata := if truthy metadata then metadata else PDict [] |}.

(** Entries of [AgentState.history]: [{"type": "message", "data": ...}]
    and [{"type": "result", "agent": ..., "data": ...}]. *)
Inductive HistoryEntry : Type :=
| HMessage (data : AgentMessage)
| HResult (agent : string) (data : pyval).

Record AgentState : Type := {
  messages : list AgentMessage;
  results : gmap string pyval;
  context : gmap string pyval;
  history : list HistoryEntry;
  current_agent : option string;
  iteration : Z
}.

(** [AgentState.__init__] *)
Definition new_state : AgentState :=
  {| messages := []; results := ∅; context := ∅; history := [];
     current_agent := None; iteration := 0 |}.

Definition add_message (message : AgentMessage) (st : AgentState) : AgentState :=
  {| messages := messages st ++ [message];
     results := results st; context := context st;
     history := history st ++ [HMessage message];
     current_agent := current_agent st; iteration := iteration st |}.

Definition set_result (agent : string) (result : pyval) (st : AgentState) : AgentState :=
  {| messages := messages st;
     results := <[agent := result]> (results st); context := context st;
     history := history st ++ [HResult agent result];
     current_agent := current_agent st; iteration := iteration st |}.

Definition get_result (agent : string) (st : AgentState) : option pyval :=
  results st !! agent.

(** [dict.update]: the keys of [updates] win. *)
Definition update_context (updates : gmap string pyval) (st : AgentState) : AgentState :=
  {| messages := messages st; results := results st;
     context := updates ∪ context st; history := history st;
     current_agent := current_agent st; iteration := iteration st |}.

Definition set_current_agent (agent : string) (st : AgentState) : AgentState :=
  {| messages := messages st; results := results st; context := context st;
     history := history st; current_agent := Some agent;
     iteration := iteration st |}.

(** [state.iteration += 1] *)
Definition incr_iteration (st : AgentState) : AgentState :=
  {| messages := messages st; results := results st; context := context st;
     history := history st; current_agent := current_agent st;
     iteration := iteration st + 1 |}.

(** Number of ["result"] entries of an audit history. *)
Definition is_result_entry (e : HistoryEntry) : bool :=
  match e with HResult _ _ => true | HMessage _ => false end.

Definition result_entries (h : list HistoryEntry) : nat :=
  length (List.filter is_result_entry h).

(** Chat messages built by [_build_messages]: [{"role": ..., "content": ...}]. *)
Record ChatMessage : Type := { role : string; chat_content : string }.

(** What the orchestrator reads of a chat completion: the message
    contents of [response.choices] and [response.usage.total_tokens]
    when the response has a [usage] attribute. *)
Record Completion : Type := { choices : list string; usage : option Z }.

(** The report of [MultiAgentSystem.execute].  The report of its
    [except] branch has no ["summary"] and no ["state"] key. *)
Record RunReport : Type := {
  report_task : string;
  report_output : pyval;
  report_success : pyval;
  report_error : pyval;
  report_summary : option pydict;
  report_state : option AgentState
}.

Definition nl : string := String "010"%char EmptyString.
Definition dq : string := String "034"%char EmptyString.

(** [sep.join(l)] *)
Fixpoint join (sep : string) (l : list string) : string :=
  match l with
  | [] => EmptyString
  | [x] => x
  | x :: l' => x +:+ sep +:+ join sep l'
  end.

(** [==] on hashable values ([True == 1], [False == 0]). *)
Definition py_eqb (a b : pyval) : bool :=
  match a, b with
  | PNone, PNone => true
  | PBool x, PBool y => Bool.eqb x y
  | PBool x, PInt y | PInt y, PBool x => (if x then 1 else 0) =? y
  | PInt x, PInt y => x =? y
  | PStr x, PStr y => String.eqb x y
  | _, _ => false
  end.

(** The distinct elements of a list of hashable values, as [set(...)]
    keeps them (Python leaves the order of a set unspecified; here it
    is the order of first occurrence). *)
Fixpoint distinct (l : list pyval) : list pyval :=
  match l with
  | [] => []
  | x :: l' => x :: List.filter (λ y, negb (py_eqb x y)) (distinct l')
  end.

(** [agents_used] of [get_execution_summary]: occurrences per sender,
    keys in order of first insertion. *)
Fixpoint count_sender (s : string) (d : pydict) : pydict :=
  match d with
  | [] => [(s, PInt 1)]
  | (k, v) :: d' =>
      if String.eqb s k
      then (k, match v with PInt n => PInt (n + 1) | _ => v end) :: d'
      else (k, v) :: count_sender s d'
  end.

Section Orchestration.

(** The outside world that workers and the completion service act on. *)
Context {Env : Type}.

(** [json.loads]: [None] stands for [json.JSONDecodeError]. *)
Variable json_loads : string → option pyval.
(** [repr] of a value. *)
Variable py_repr : pyval → string.
(** [settings.max_iterations] *)
Variable max_iterations : Z.

(** [str(x)]: the text itself for a [str], [repr(x)] otherwise. *)
Definition py_str (v : pyval) : string :=
  match v with
  | PStr s => s
  | _ => py_repr v
  end.

(** [KeyError(key)]; its [str] is [repr(key)]. *)
Definition KeyError (key : pyval) : exn := Exn "KeyError" (py_repr key).

(** [client.chat.completions.create(model=..., messages=...)] *)
Definition Client : Type :=
  string → list ChatMessage → Env → Env * (exn + Completion).

(** Attributes every [BaseAgent] carries. *)
Record BaseAgent : Type := {
  agent_id : string;
  name : string;
  agent_role : string;
  model : string;
  system_prompt : string;
  client : option Client
}.

(** A worker: a [BaseAgent] with its [execute(task, state)].  It may
    mutate the shared state and the world, and either raises or returns
    a result of its declared type, [Dict[str, Any]]. *)
Record Worker : Type := {
  base : BaseAgent;
  execute : pyval → AgentState → Env → AgentState * Env * (exn + pydict)
}.

(** The orchestrator: itself a [BaseAgent], with the worker registry
    [self.agents] in insertion order. *)
Record Orchestrator : Type := {
  self : BaseAgent;
  agents : list (string * Worker)
}.

(** Everything a run can change: the shared state of the current run,
    the world, the requests submitted by the orchestrator's client
    (instrumentation: one entry per call of [create]), the
    orchestrator's usage counters and the system's execution history. *)
Record World : Type := {
  state : AgentState;
  env : Env;
  requests : list (list ChatMessage);
  execution_count : Z;
  total_tokens : Z;
  execution_history : list RunReport
}.

Definition with_state (f : AgentState → AgentState) (w : World) : World :=
  {| state := f (state w); env := env w; requests := requests w;
     execution_count := execution_count w; total_tokens := total_tokens w;
     execution_history := execution_history w |}.

(** ** The monad of state and exceptions *)

Definition M (A : Type) : Type := World → World * (exn + A).

#[local] Instance M_ret : MRet M := λ A x w, (w, inr x).
#[local] Instance M_bind : MBind M := λ A B f c w,
  match c w with
  | (w', inr x) => f x w'
  | (w', inl e) => (w', inl e)
  end.

Definition raise {A : Type} (e : exn) : M A := λ w, (w, inl e).

(** [try: c  except Exception as e: h e] *)
Definition try_except {A : Type} (c : M A) (h : exn → M A) : M A := λ w,
  match c w with
  | (w', inl e) => h e w'
  | r => r
  end.

Definition get_state : M AgentState := λ w, (w, inr (state w)).
Definition modify_state (f : AgentState → AgentState) : M unit :=
  λ w, (with_state f w, inr tt).
Definition lift {A : Type} (r : exn + A) : M A := λ w, (w, r).

(** The world once a worker has left the shared state as [st'] and
    the outside world as [env']. *)
Definition after_worker (st' : AgentState) (env' : Env) (w : World) : World :=
  {| state := st'; env := env'; requests := requests w;
     execution_count := execution_count w; total_tokens := total_tokens w;
     execution_history := execution_history w |}.

(** [agent.execute(action, state)] on the shared state and the world. *)
Definition call_worker (agent : Worker) (action : pyval) : M pydict := λ w,
  let '(st', env', r) := execute agent action (state w) (env w) in
  (after_worker st' env' w, r).

(** ** [BaseAgent] methods used by the orchestrator *)

(** [_call_llm(messages, ...)].  The sampling arguments are not passed
    on to [create] in the source. *)
Definition _call_llm (a : BaseAgent) (msgs : list ChatMessage) : M string := λ w,
  match client a with
  | None => (w, inl (Exn "RuntimeError" (name a +:+ ": OpenAI client not available")))
  | Some create =>
      let '(env', r) := create (model a) msgs (env w) in
      match r with
      | inl e =>
          ({| state := state w; env := env'; requests := requests w ++ [msgs];
              execution_count := execution_count w;
              total_tokens := total_tokens w;
              execution_history := execution_history w |}, inl e)
      | inr response =>
          let w' :=
            {| state := state w; env := env'; requests := requests w ++ [msgs];
               execution_count := execution_count w + 1;
               total_tokens :=
                 match usage response with
                 | Some t => total_tokens w + t
                 | None => total_tokens w
                 end;
               execution_history := execution_history w |} in
          match choices response with
          | result :: _ => (w', inr result)
          | [] => (w', inl (Exn "IndexError" "list index out of range"))
          end
      end
  end.

(** [_build_messages(task)], called without a context. *)
Definition _build_messages (a : BaseAgent) (task : string) : list ChatMessage :=
  [ {| role := "system"; chat_content := system_prompt a |};
    {| role := "user"; chat_content := task |} ].

(** [format_result(output, success, error, metadata)] *)
Definition format_result (a : BaseAgent) (output : pyval) (success : bool)
    (error : pyval) (meta : pyval) : M pydict := λ w,
  (w, inr [ ("agent", PStr (agent_id a));
            ("name", PStr (name a));
            ("output", output);
            ("success", PBool success);
            ("error", error);
            ("metadata", if truthy meta then meta else PDict []);
            ("executions", PInt (execution_count w));
            ("tokens_used", PInt (total_tokens w)) ]).

(** ** [Orchestrator] *)

Variable o : Orchestrator.

(** Membership of a key in [self.agents] (or in the set of its keys):
    hashing a list or a dict raises, a key that is not a [str] is never
    found. *)
Definition find_agent (key : pyval) : exn + option Worker :=
  match key with
  | PStr s => inr (assoc s (agents o))
  | PList _ | PDict _ => inl (TypeError_unhashable key)
  | PNone | PBool _ | PInt _ => inr None
  end.

(** The fallback plan of an emptied generated plan. *)
Definition fallback_plan : list pydict :=
  [ [("agent", PStr "research"); ("action", PStr "gather information")];
    [("agent", PStr "writing"); ("action", PStr "create output")] ].

(** The default plan of an undecodable response. *)
Definition default_plan : list pydict :=
  [ [("agent", PStr "research"); ("action", PStr "research task")];
    [("agent", PStr "writing"); ("action", PStr "write response")] ].

(** [for step in plan]: what iterating the decoded value yields. *)
Definition py_iter (v : pyval) : exn + list pyval :=
  match v with
  | PList l => inr l
  | PDict d => inr (map (λ kv, PStr (fst kv)) d)
  | PStr s => inr (chars s)
  | PNone | PBool _ | PInt _ => inl (TypeError_not_iterable v)
  end.

(** [[step for step in plan if step.get("agent") in valid_agents]] *)
Fixpoint keep_valid (steps : list pyval) : exn + list pydict :=
  match steps with
  | [] => inr []
  | step :: steps' =>
      match step with
      | PDict d =>
          match find_agent (dict_get_default "agent" PNone d) with
          | inl e => inl e
          | inr found =>
              match keep_valid steps' with
              | inl e => inl e
              | inr kept =>
                  inr (match found with Some _ => d :: kept | None => kept end)
              end
          end
      | _ => inl (AttributeError_get step)
      end
  end.

Definition agent_descriptions : string :=
  join nl (map (λ kv, "- " +:+ fst kv +:+ ": " +:+ agent_role (base (snd kv)))
               (agents o)).

Definition planning_prompt (task : string) : string :=
  "Create an execution plan for this task: " +:+ task +:+ nl +:+ nl +:+
  "Available agents:" +:+ nl +:+
  agent_descriptions +:+ nl +:+ nl +:+
  "Create a plan with 2-5 steps. Each step should use one agent." +:+ nl +:+ nl +:+
  "Respond in JSON format:" +:+ nl +:+
  "[" +:+ nl +:+
  "    {" +:+ dq +:+ "agent" +:+ dq +:+ ": " +:+ dq +:+ "agent_id" +:+ dq +:+
  ", " +:+ dq +:+ "action" +:+ dq +:+ ": " +:+ dq +:+ "what to do" +:+ dq +:+
  ", " +:+ dq +:+ "reasoning" +:+ dq +:+ ": " +:+ dq +:+ "why" +:+ dq +:+ "}," +:+ nl +:+
  "    ..." +:+ nl +:+
  "]".

Definition _create_custom_plan (task : string) : M (list pydict) :=
  response ← _call_llm (self o) (_build_messages (self o) (planning_prompt task));
  match json_loads response with
  | None => mret default_plan
  | Some decoded =>
      steps ← lift (py_iter decoded);
      plan ← lift (keep_valid steps);
      match plan with
      | [] => mret fallback_plan
      | _ => mret plan
      end
  end.

(** [_create_plan(task, state)].  A catalogue entry is a non-empty
    dict, hence true in [if template:]. *)
Definition _create_plan (task : string) : M (list pydict) :=
  match _match_template task with
  | Some template => mret (tpl_steps template)
  | None => _create_custom_plan task
  end.

(** The result of a step whose worker is not registered. *)
Definition not_available (agent_id : pyval) : pydict :=
  [ ("success", PBool false);
    ("error", PStr ("Agent '" +:+ py_str agent_id +:+ "' not available")) ].

(** The result of a step whose worker raised. *)
Definition failed_step (e : exn) (agent_id : string) : pydict :=
  [ ("success", PBool false);
    ("error", PStr (exn_msg e));
    ("agent", PStr agent_id) ].

(** The outbound message of a step. *)
Definition task_message (id : string) (action : pyval) : AgentMessage :=
  new_message (agent_id (self o)) id action "task" PNone.

(** The inbound message of a step whose worker returned [result]. *)
Definition result_message (id : string) (result : pydict) : AgentMessage :=
  new_message id (agent_id (self o))
    (PStr (py_str (dict_get_default "output" (PStr EmptyString) result)))
    "result"
    (dict_get_default "metadata" (PDict []) result).

Definition _execute_step (step : pydict) : M pydict :=
  match dict_get "agent" step with
  | None => raise (KeyError (PStr "agent"))
  | Some agent_id =>
      let action := dict_get_default "action" (PStr "execute task") step in
      match agent_id, find_agent agent_id with
      | _, inl e => raise e
      | PStr id, inr (Some agent) =>
          modify_state (set_current_agent id);;
          modify_state (add_message (task_message id action));;
          try_except
            (result ← call_worker agent action;
             modify_state (set_result id (PDict result));;
             modify_state (add_message (result_message id result));;
             mret result)
            (λ e, mret (failed_step e id))
      | _, inr _ => mret (not_available agent_id)
      end
  end.

(** The [for] loop of [execute]: [results] holds the results appended
    so far.  The log line of a step reads [step['agent']] before the
    step is executed. *)
Fixpoint run_steps (plan : list pydict) (results : list pydict) : M (list pydict) :=
  match plan with
  | [] => mret results
  | step :: plan' =>
      match dict_get "agent" step with
      | None => raise (KeyError (PStr "agent"))
      | Some _ =>
          result ← _execute_step step;
          modify_state incr_iteration;;
          st ← get_state;
          if max_iterations <=? iteration st
          then mret (results ++ [result])
          else run_steps plan' (results ++ [result])
      end
  end.

(** [self.agents[key]] *)
Definition agent_of (key : pyval) : exn + Worker :=
  match find_agent key with
  | inl e => inl e
  | inr (Some agent) => inr agent
  | inr None => inl (KeyError key)
  end.

(** The loop of [_synthesize_results] over [zip(plan, results)]. *)
Fixpoint collect_outputs (plan results : list pydict) : exn + list string :=
  match plan, results with
  | step :: plan', result :: results' =>
      if truthy (dict_get_default "success" PNone result)
      then
        match dict_get "agent" step with
        | None => inl (KeyError (PStr "agent"))
        | Some key =>
            match agent_of key with
            | inl e => inl e
            | inr agent =>
                let output := dict_get_default "output" (PStr EmptyString) result in
                match collect_outputs plan' results' with
                | inl e => inl e
                | inr outputs =>
                    inr (("**" +:+ name (base agent) +:+ "**:" +:+ nl +:+
                          py_str output +:+ nl) :: outputs)
                end
            end
        end
      else collect_outputs plan' results'
  | _, _ => inr []
  end.

Definition synthesis_prompt (task outputs_text : string) : string :=
  "Synthesize the following agent outputs into a comprehensive response to the user's task."
  +:+ nl +:+ nl +:+
  "Original Task: " +:+ task +:+ nl +:+ nl +:+
  "Agent Outputs:" +:+ nl +:+
  outputs_text +:+ nl +:+ nl +:+
  "Provide a well-structured, cohesive response that:" +:+ nl +:+
  "1. Directly addresses the user's task" +:+ nl +:+
  "2. Integrates information from all agents" +:+ nl +:+
  "3. Maintains a clear and professional tone" +:+ nl +:+
  "4. Includes relevant details and citations where applicable".

Definition no_outputs : string := "No successful outputs from agents.".

Definition _synthesize_results (task : string) (plan results : list pydict) : M string :=
  outputs ← lift (collect_outputs plan results);
  match outputs with
  | [] => mret no_outputs
  | _ =>
      _call_llm (self o)
        (_build_messages (self o) (synthesis_prompt task (join nl outputs)))
  end.

(** The elements fed to [set(s["agent"] for s in plan)], one step at
    a time: a step without an agent or with an agent that cannot be
    hashed raises. *)
Fixpoint plan_agents (plan : list pydict) : exn + list pyval :=
  match plan with
  | [] => inr []
  | s :: plan' =>
      match dict_get "agent" s with
      | None => inl (KeyError (PStr "agent"))
      | Some ((PList _ | PDict _) as a) => inl (TypeError_unhashable a)
      | Some a =>
          match plan_agents plan' with
          | inl e => inl e
          | inr l => inr (a :: l)
          end
      end
  end.

(** [list(set(s["agent"] for s in plan))] *)
Definition agents_used (plan : list pydict) : exn + pyval :=
  match plan_agents plan with
  | inl e => inl e
  | inr l => inr (PList (distinct l))
  end.

(** The body of the [try] of [Orchestrator.execute]. *)
Definition orchestrate (task : string) : M pydict :=
  plan ← _create_plan task;
  results ← run_steps plan [];
  final_result ← _synthesize_results task plan results;
  used ← lift (agents_used plan);
  format_result (self o) (PStr final_result) true PNone
    (PDict [ ("plan", PList (map PDict plan));
             ("steps_executed", PInt (Z.of_nat (length results)));
             ("agents_used", used) ]).

(** [Orchestrator.execute(task, state)] *)
Definition Orchestrator_execute (task : string) : M pydict :=
  try_except (orchestrate task)
    (λ e, format_result (self o) PNone false (PStr (exn_msg e)) PNone).

(** [get_execution_summary(state)] *)
Definition count_senders (msgs : list AgentMessage) : pydict :=
  fold_left
    (λ used msg,
       if String.eqb (sender msg) (agent_id (self o)) then used
       else count_sender (sender msg) used)
    msgs [].

Definition get_execution_summary (st : AgentState) : pydict :=
  [ ("total_iterations", PInt (iteration st));
    ("agents_used", PDict (count_senders (messages st)));
    ("messages_exchanged", PInt (Z.of_nat (length (messages st))));
    ("results_generated", PInt (Z.of_nat (size (results st)))) ].

(** ** [MultiAgentSystem.execute(task, context)] *)

Definition start_run (ctx : option (gmap string pyval)) : M unit := λ w,
  let fresh :=
    match ctx with
    | Some c => if decide (c = ∅) then new_state else update_context c new_state
    | None => new_state
    end in
  (with_state (λ _, fresh) w, inr tt).

Definition record_report (r : RunReport) : M RunReport := λ w,
  ({| state := state w; env := env w; requests := requests w;
      execution_count := execution_count w; total_tokens := total_tokens w;
      execution_history := execution_history w ++ [r] |}, inr r).

Definition MultiAgentSystem_execute (task : string) (ctx : option (gmap string pyval))
    : M RunReport :=
  try_except
    (start_run ctx;;
     result ← Orchestrator_execute task;
     st ← get_state;
     record_report
       {| report_task := task;
          report_output := dict_get_default "output" PNone result;
          report_success := dict_get_default "success" PNone result;
          report_error := dict_get_default "error" PNone result;
          report_summary := Some (get_execution_summary st);
          report_state := Some st |})
    (λ e, mret {| report_task := task; report_output := PNone;
                  report_success := PBool false;
                  report_error := PStr (exn_msg e);
                  report_summary := None; report_state := None |}).

End Orchestration.

(** ** Further operations of [base_agent.py] and [main_system.py] *)

(** [d[k] = v] on a dict kept in insertion order: an existing key
    keeps its place, a new key goes last. *)
Fixpoint dict_set {A : Type} (k : string) (v : A) (d : list (string * A))
    : list (string * A) :=
  match d with
  | [] => [(k, v)]
  | (k', v') :: d' =>
      if String.eqb k k' then (k', v) :: d' else (k', v') :: dict_set k v d'
  end.

(** [l[start:]] *)
Definition slice_from {A : Type} (start : Z) (l : list A) : list A :=
  let n := Z.of_nat (length l) in
  drop (Z.to_nat (if start <? 0 then Z.max (n + start) 0 else Z.min start n)) l.

Section Agent_operations.

Context {Env : Type}.
Variable json_loads : string → option pyval.
Variable py_repr : pyval → string.

#[local] Existing Instances M_ret M_bind.

(** The lines [f"{k}: {v}"] of the entries of a context whose value is
    true. *)
Definition context_lines (context : pydict) : list string :=
  map (λ kv, fst kv +:+ ": " +:+ py_str py_repr (snd kv))
      (List.filter (λ kv, truthy (snd kv)) context).

(** [_build_messages(task, context)] *)
Definition _build_messages_with_context (a : @BaseAgent Env) (task : string)
    (context : option pydict) : list ChatMessage :=
  [ {| role := "system"; chat_content := system_prompt a |} ]
  ++ match context with
     | Some c =>
         if truthy (PDict c)
         then
           let context_str := join nl (context_lines c) in
           if String.eqb context_str EmptyString then []
           else [ {| role := "system";
                     chat_content := "Context:" +:+ nl +:+ context_str |} ]
         else []
     | None => []
     end
  ++ [ {| role := "user"; chat_content := task |} ].

Definition decision_prompt (task : string) (available_tools : list string) : string :=
  "Given the task: " +:+ task +:+ nl +:+ nl +:+
  "Available tools:" +:+ nl +:+
  join nl (map (λ tool, "- " +:+ tool) available_tools) +:+ nl +:+ nl +:+
  "Decide the next action. Respond in JSON format:" +:+ nl +:+
  "{" +:+ nl +:+
  "    " +:+ dq +:+ "action" +:+ dq +:+ ": " +:+ dq +:+ "tool_name or 'complete'"
  +:+ dq +:+ "," +:+ nl +:+
  "    " +:+ dq +:+ "parameters" +:+ dq +:+ ": {}," +:+ nl +:+
  "    " +:+ dq +:+ "reasoning" +:+ dq +:+ ": " +:+ dq +:+ "why this action"
  +:+ dq +:+ nl +:+
  "}".

(** The decision returned when the response cannot be decoded. *)
Definition default_decision : pydict :=
  [ ("action", PStr "complete");
    ("parameters", PDict []);
    ("reasoning", PStr "Error parsing decision") ].

(** [decide_next_action(task, available_tools, context)].  The log
    line reads [decision.get('action')] before the decision is
    returned. *)
Definition decide_next_action (a : @BaseAgent Env) (task : string)
    (available_tools : list string) (context : option pydict) : M pydict :=
  response ← _call_llm a
    (_build_messages_with_context a (decision_prompt task available_tools) context);
  match json_loads response with
  | None => mret default_decision
  | Some (PDict decision) => mret decision
  | Some v => raise (AttributeError_get v)
  end.

(** A registered tool: called with keyword arguments, it acts on the
    world and returns a value or raises. *)
Definition Tool : Type := pydict → Env → Env * (exn + pyval).

(** [ToolUsingAgent.register_tool(tool_name, tool_function)] on the
    agent's [tool_registry]. *)
Definition register_tool (tool_name : string) (tool_function : Tool)
    (tool_registry : list (string * Tool)) : list (string * Tool) :=
  dict_set tool_name tool_function tool_registry.

(** [ToolUsingAgent.use_tool(tool_name, **kwargs)]: an exception of
    the tool is logged and raised again. *)
Definition use_tool (tool_registry : list (string * Tool)) (tool_name : string)
    (kwargs : pydict) : Env → Env * (exn + pyval) := λ env,
  match assoc tool_name tool_registry with
  | None => (env, inl (Exn "ValueError" ("Tool '" +:+ tool_name +:+ "' not registered")))
  | Some tool_function => tool_function kwargs env
  end.

(** [ToolUsingAgent.get_available_tools()] *)
Definition get_available_tools (tool_registry : list (string * Tool)) : list string :=
  map fst tool_registry.

(** [MultiAgentSystem.get_history(limit)]: [execution_history[-limit:]] *)
Definition get_history (limit : Z) (w : @World Env) : list RunReport :=
  slice_from (- limit) (execution_history w).

(** [MultiAgentSystem.clear_history()] *)
Definition clear_history (w : @World Env) : @World Env :=
  {| state := state w; env := env w; requests := requests w;
     execution_count := execution_count w; total_tokens := total_tokens w;
     execution_history := [] |}.

End Agent_operations.

(** ** Specification vocabulary *)

(** [kw] occurs in [task] up to the case of ASCII letters. *)
Definition occurs_nocase (kw task : string) : Prop :=
  ∃ pre occ post, task = pre +:+ occ +:+ post ∧ lower occ = kw.

(** Some keyword of the list occurs in the task. *)
Definition mentions (task : string) (kws : list string) : Prop :=
  ∃ kw, In kw kws ∧ occurs_nocase kw task.

(** No template's keyword occurs in the task. *)
Definition matches_no_template (task : string) : Prop :=
  ∀ tid kws, In (tid, kws) keywords → ¬ mentions task kws.

(** A value that can be hashed (used as a dict key or set element). *)
Definition hashable (v : pyval) : bool :=
  match v with
  | PList _ | PDict _ => false
  | PNone | PBool _ | PInt _ | PStr _ => true
  end.

(** [id] is a key of the worker registry. *)
Definition registers {Env : Type} (o : @Orchestrator Env) (id : string) : Prop :=
  is_Some (assoc id (agents o)).

(** The step's ["agent"] is the identifier of a registered worker. *)
Definition names_worker {Env : Type} (o : @Orchestrator Env) (step : pydict) : Prop :=
  ∃ id, dict_get "agent" step = Some (PStr id) ∧ registers o id.

Definition names_worker_b {Env : Type} (o : @Orchestrator Env) (step : pydict) : bool :=
  match dict_get "agent" step with
  | Some (PStr id) => match assoc id (agents o) with Some _ => true | None => false end
  | _ => false
  end.

(** The generated steps that name a registered worker, in their order. *)
Definition registered_steps {Env : Type} (o : @Orchestrator Env)
    (generated : list pydict) : list pydict :=
  List.filter (names_worker_b o) generated.

(** The step's ["agent"], if present, can be hashed. *)
Definition hashable_agent (step : pydict) : Prop :=
  hashable (dict_get_default "agent" PNone step) = true.

(** The step has an ["agent"] entry that can be hashed. *)
Definition has_agent (step : pydict) : Prop :=
  ∃ v, dict_get "agent" step = Some v ∧ hashable v = true.

(** The instruction of a step: its ["action"], or the default text. *)
Definition step_action (step : pydict) : pyval :=
  dict_get_default "action" (PStr "execute task") step.

(** The shared state as the worker [id] of a step finds it: [id] is
    the current agent and the outbound message is the last one logged. *)
Definition step_input {Env : Type} (o : @Orchestrator Env) (id : string)
    (action : pyval) (st : AgentState) : AgentState :=
  add_message (task_message o id action) (set_current_agent id st).

(** No registered worker changes [state.iteration]. *)
Definition keeps_iteration {Env : Type} (o : @Orchestrator Env) : Prop :=
  ∀ id agent action st env,
    assoc id (agents o) = Some agent →
    iteration (execute agent action st env).1.1 = iteration st.

(** The workers that the catalogue and the two built-in plans name. *)
Definition builtin_workers : list string :=
  ["research"; "code"; "data"; "writing"; "qa"].

(** The messages recorded in an audit history, in order. *)
Definition logged_messages (h : list HistoryEntry) : list AgentMessage :=
  omap (λ e, match e with HMessage m => Some m | HResult _ _ => None end) h.

(** The results mapping rebuilt by replaying the result entries of an
    audit history, oldest first. *)
Definition replay_results (h : list HistoryEntry) : gmap string pyval :=
  fold_left
    (λ acc e, match e with HResult a r => <[a := r]> acc | HMessage _ => acc end)
    h ∅.

(** The audit history accounts for the messages and for the results. *)
Definition audit_consistent (st : AgentState) : Prop :=
  logged_messages (history st) = messages st ∧
  replay_results (history st) = results st.

(** A property of the shared state that the four mutations the step
    executor and the run loop perform do not break. *)
Definition stable_under_executor (P : AgentState → Prop) : Prop :=
  (∀ id st, P st → P (set_current_agent id st)) ∧
  (∀ m st, P st → P (add_message m st)) ∧
  (∀ a r st, P st → P (set_result a r st)) ∧
  (∀ st, P st → P (incr_iteration st)).

(** Every registered worker leaves the shared state in [P] when it
    finds it in [P], whether it returns or raises. *)
Definition workers_preserve {Env : Type} (o : @Orchestrator Env)
    (P : AgentState → Prop) : Prop :=
  ∀ id agent action st env,
    assoc id (agents o) = Some agent →
    P st → P (execute agent action st env).1.1.

(** The computation leaves the shared state in [P] when it starts in [P]. *)
Definition keeps_state {Env A : Type} (P : AgentState → Prop) (c : @M Env A) : Prop :=
  ∀ w, P (state w) → P (state (c w).1).

(** The result reports a success, as [result.get("success")] is tested. *)
Definition succeeded (result : pydict) : bool :=
  truthy (dict_get_default "success" PNone result).

(** No registered worker ever returns a result that reports a success. *)
Definition never_succeeds {Env : Type} (o : @Orchestrator Env) : Prop :=
  ∀ id agent action st env st' env' result,
    assoc id (agents o) = Some agent →
    execute agent action st env = (st', env', inr result) →
    succeeded result = false.

(** No registered worker logs a message of its own. *)
Definition workers_log_nothing {Env : Type} (o : @Orchestrator Env) : Prop :=
  ∀ id agent action st env,
    assoc id (agents o) = Some agent →
    messages (execute agent action st env).1.1 = messages st.

(** The registry built by a sequence of registrations, first to last. *)
Definition registry_of {Env : Type} (registrations : list (string * @Tool Env))
    : list (string * @Tool Env) :=
  fold_left (λ reg nf, register_tool nf.1 nf.2 reg) registrations [].

(** Between [w] and [w'] the orchestrator submitted the requests
    [new], each a system prompt followed by one user message, and its
    count of completions grew by at most one per request. *)
Definition calls_between {Env : Type} (o : @Orchestrator Env)
    (w w' : @World Env) (new : list (list ChatMessage)) : Prop :=
  requests w' = requests w ++ new ∧
  Forall (λ r, ∃ prompt, r = _build_messages (self o) prompt) new ∧
  execution_count w ≤ execution_count w'
                    ≤ execution_count w + Z.of_nat (length new).

(** The step's ["agent"] is a string. *)
Definition string_agent (step : pydict) : Prop :=
  ∃ id, dict_get "agent" step = Some (PStr id).

(** A successful result comes with a step that names a registered
    worker. *)
Definition success_has_worker {Env : Type} (o : @Orchestrator Env)
    (step result : pydict) : Prop :=
  succeeded result = true →
  ∃ id agent, dict_get "agent" step = Some (PStr id) ∧
              assoc id (agents o) = Some agent.

(** Number of messages sent by [s]. *)
Definition sent_by (s : string) (msgs : list AgentMessage) : nat :=
  length (List.filter (λ m, String.eqb (sender m) s) msgs).

(** ** The run loop as the specification words it *)

Section Reference_loop.

Context {Env : Type}.
Variable py_repr : pyval → string.
Variable o : @Orchestrator Env.

#[local] Existing Instances M_ret M_bind.

(** The specification's run loop without its ceiling, to compare
    [run_steps] with: each step of [steps], in order, is handed once to
    the step executor, the iteration counter is increased by one right
    after it, and the results are collected in the order of the steps.
    Nothing else touches the state or the outside world. *)
Fixpoint run_each_once (steps : list pydict) : M (list pydict) :=
  match steps with
  | [] => mret []
  | step :: steps' =>
      result ← _execute_step py_repr o step;
      modify_state incr_iteration;;
      results ← run_each_once steps';
      mret (result :: results)
  end.

End Reference_loop.

(** The number of steps the specification lets a run execute: all the
    [n] steps of the plan, but no more than the room the ceiling leaves
    above the counter [it], and one step at least. *)
Definition steps_to_run (max_iterations it : Z) (n : nat) : nat :=
  Nat.min n (Z.to_nat (Z.max 1 (max_iterations - it))).

(** ** Concrete collaborators, used to run the model *)

Module Sample.

(** [repr] on values whose strings hold no quote, backslash or control
    character. *)
Fixpoint repr (v : pyval) : string :=
  match v with
  | PNone => "None"
  | PBool true => "True"
  | PBool false => "False"
  | PInt z => pretty z
  | PStr s => "'" +:+ s +:+ "'"
  | PList l => "[" +:+ join ", " (map repr l) +:+ "]"
  | PDict d =>
      "{" +:+ join ", " (map (λ '(k, x), "'" +:+ k +:+ "': " +:+ repr x) d) +:+ "}"
  end.

Definition quoted (s : string) : string := dq +:+ s +:+ dq.

(** The text [{"agent": a, "action": b}] of a generated step. *)
Definition step_text (a b : string) : string :=
  "{" +:+ quoted "agent" +:+ ": " +:+ quoted a +:+ ", " +:+
  quoted "action" +:+ ": " +:+ quoted b +:+ "}".

Definition one_step_text : string := "[" +:+ step_text "research" "look it up" +:+ "]".

Definition six_steps_text : string :=
  "[" +:+ join ", " [ step_text "research" "find sources";
                      step_text "data" "tabulate";
                      step_text "code" "plot";
                      step_text "writing" "draft";
                      step_text "qa" "review";
                      step_text "writing" "revise" ] +:+ "]".

Definition unknown_step_text : string := "[" +:+ step_text "planner" "think" +:+ "]".

(** A decoder that agrees with [json.loads] on the three texts above
    and on ["[]"], and rejects every other text, among them
    ["Sure, here is the plan"]. *)
Definition loads (text : string) : option pyval :=
  if String.eqb text "[]" then Some (PList [])
  else if String.eqb text one_step_text
  then Some (PList [PDict (mk_step "research" "look it up")])
  else if String.eqb text six_steps_text
  then Some (PList [ PDict (mk_step "research" "find sources");
                     PDict (mk_step "data" "tabulate");
                     PDict (mk_step "code" "plot");
                     PDict (mk_step "writing" "draft");
                     PDict (mk_step "qa" "review");
                     PDict (mk_step "writing" "revise") ])
  else if String.eqb text unknown_step_text
  then Some (PList [PDict (mk_step "planner" "think")])
  else None.

Definition agent (id nm rl : string) : @BaseAgent unit :=
  {| agent_id := id; name := nm; agent_role := rl; model := "gpt-4";
     system_prompt := EmptyString; client := None |}.

(** A result as [format_result] lays it out. *)
Definition result (id nm : string) (output : pyval) (success : bool)
    (error : pyval) : pydict :=
  [ ("agent", PStr id); ("name", PStr nm); ("output", output);
    ("success", PBool success); ("error", error); ("metadata", PDict []);
    ("executions", PInt 0); ("tokens_used", PInt 0) ].

(** A worker that returns the same result on every call. *)
Definition returning (id nm rl : string) (r : pydict) : @Worker unit :=
  {| base := agent id nm rl; execute := λ _ st env, (st, env, inr r) |}.

(** A worker that raises on every call. *)
Definition raising (id nm rl : string) (e : exn) : @Worker unit :=
  {| base := agent id nm rl; execute := λ _ st env, (st, env, inl e) |}.

Definition succeeding (id nm rl : string) : @Worker unit :=
  returning id nm rl (result id nm (PStr (id +:+ " output")) true PNone).

(** A worker that reports its own failure, as the workers' [except]
    branches do. *)
Definition declining (id nm rl : string) : @Worker unit :=
  returning id nm rl (result id nm PNone false (PStr "search failed")).

(** The registry of [MultiAgentSystem.__init__]. *)
Definition five_workers : list (string * @Worker unit) :=
  [ ("research", succeeding "research" "Research Agent" "Information Gatherer");
    ("code", succeeding "code" "Code Agent" "Software Developer");
    ("data", succeeding "data" "Data Agent" "Data Analyst");
    ("writing", succeeding "writing" "Writing Agent" "Content Creator");
    ("qa", succeeding "qa" "QA Agent" "Quality Assurance") ].

(** A completion service that answers every request with [text]. *)
Definition replying (text : string) : @Client unit :=
  λ _ _ env, (env, inr {| choices := [text]; usage := Some 42 |}).

(** A completion service that fails on every request. *)
Definition failing (e : exn) : @Client unit := λ _ _ env, (env, inl e).

Definition orchestrator (c : option (@Client unit))
    (workers : list (string * @Worker unit)) : @Orchestrator unit :=
  {| self := {| agent_id := "orchestrator"; name := "Orchestrator";
                agent_role := "Task Coordinator"; model := "gpt-4";
                system_prompt := "You coordinate the agents.";
                client := c |};
     agents := workers |}.

Definition research_declining : @Worker unit :=
  declining "research" "Research Agent" "Information Gatherer".

Definition research_raising (e : exn) : @Worker unit :=
  raising "research" "Research Agent" "Information Gatherer" e.

(** An orchestrator without a completion service whose registry holds
    one worker, under the key research. *)
Definition lone (worker : @Worker unit) : @Orchestrator unit :=
  orchestrator None [("research", worker)].

(** The system of [MultiAgentSystem.__init__] with a completion
    service that answers [text]. *)
Definition planner (text : string) : @Orchestrator unit :=
  orchestrator (Some (replying text)) five_workers.

(** An orchestrator whose registry holds the code worker only. *)
Definition code_only : @Orchestrator unit :=
  orchestrator None [("code", succeeding "code" "Code Agent" "Software Developer")].

Definition world (st : AgentState) : @World unit :=
  {| state := st; env := tt; requests := []; execution_count := 0;
     total_tokens := 0; execution_history := [] |}.

Definition GenerationError : exn := Exn "GenerationError" "service unavailable".

End Sample.


(** * Properties *)

(** ** Strings *)

Lemma starts_with_spec p s :
  starts_with p s = true ↔ ∃ post, s = p +:+ post.
Proof.
  revert s; induction p as [|a p IH]; intros s; simpl.
  - split; [intros _; by exists s | done].
  - destruct s as [|b s].
    + split; [done | intros [post H]; discriminate].
    + rewrite andb_true_iff, IH. split.
      * intros [Hab [post ->]]. apply Ascii.eqb_eq in Hab as ->. by exists post.
      * intros [post H]. injection H as -> ->. split; [apply Ascii.eqb_refl | by exists post].
Qed.

Lemma contains_spec kw s :
  contains kw s = true ↔ ∃ pre post, s = pre +:+ kw +:+ post.
Proof.
  induction s as [|c s IH].
  - cbn [contains]. rewrite orb_false_r, starts_with_spec. split.
    + intros [post H]. by exists EmptyString, post.
    + intros [pre [post H]]. destruct pre; [by exists post | discriminate].
  - cbn [contains]. rewrite orb_true_iff, starts_with_spec, IH. split.
    + intros [[post H] | [pre [post H]]].
      * by exists EmptyString, post.
      * exists (String c pre), post. simpl. by rewrite H.
    + intros [pre [post H]]. destruct pre as [|a pre].
      * left. by exists post.
      * right. simpl in H. injection H as -> ->. by exists pre, post.
Qed.

Lemma lower_app a b : lower (a +:+ b) = lower a +:+ lower b.
Proof. induction a as [|c a IH]; simpl; [done | by rewrite IH]. Qed.

Lemma lower_split t a b :
  lower t = a +:+ b → ∃ a' b', t = a' +:+ b' ∧ lower a' = a ∧ lower b' = b.
Proof.
  revert t; induction a as [|c a IH]; intros t H.
  - by exists EmptyString, t.
  - destruct t as [|d t]; [discriminate |].
    simpl in H. injection H as Hc Ht.
    destruct (IH _ Ht) as (a' & b' & -> & Ha & Hb).
    exists (String d a'), b'. simpl. by rewrite Hc, Ha.
Qed.

Lemma contains_lower kw task :
  contains kw (lower task) = true ↔ occurs_nocase kw task.
Proof.
  rewrite contains_spec. split.
  - intros (pre & post & H).
    apply lower_split in H as (pre' & rest & -> & _ & H).
    apply lower_split in H as (occ & post' & -> & Hocc & _).
    by exists pre', occ, post'.
  - intros (pre & occ & post & -> & <-).
    exists (lower pre), (lower post). by rewrite !lower_app.
Qed.

Lemma any_keyword_mentions task kws :
  any_keyword (lower task) kws = true ↔ mentions task kws.
Proof.
  unfold any_keyword, mentions. rewrite existsb_exists.
  split; intros (kw & Hin & H); exists kw; (split; [done |]);
    by apply contains_lower.
Qed.

(** ** Template matching *)

Lemma match_in_first templates earlier tid kws later task :
  (∀ tid' kws', In (tid', kws') earlier → ¬ mentions task kws') →
  mentions task kws →
  match_in templates (earlier ++ (tid, kws) :: later) (lower task)
  = assoc tid templates.
Proof.
  intros Hearlier Hkws. induction earlier as [|[tid' kws'] earlier IH]; simpl.
  - apply any_keyword_mentions in Hkws. by rewrite Hkws.
  - destruct (any_keyword (lower task) kws') eqn:E.
    + apply any_keyword_mentions in E. exfalso.
      apply (Hearlier tid' kws'); [by left | done].
    + apply IH. intros t k ?. apply (Hearlier t k). by right.
Qed.

Lemma match_in_none templates table task :
  (∀ tid kws, In (tid, kws) table → ¬ mentions task kws) →
  match_in templates table (lower task) = None.
Proof.
  intros H. induction table as [|[tid kws] table IH]; simpl; [done |].
  destruct (any_keyword (lower task) kws) eqn:E.
  - apply any_keyword_mentions in E. exfalso.
    apply (H tid kws); [by left | done].
  - apply IH. intros t k ?. apply (H t k). by right.
Qed.

Lemma declared_templates tid kws :
  In (tid, kws) keywords → is_Some (assoc tid WORKFLOW_TEMPLATES).
Proof.
  unfold keywords. simpl.
  intros [H | [H | [H | []]]]; injection H as <- _; by eexists.
Qed.

Lemma match_template_none task :
  _match_template task = None ↔ matches_no_template task.
Proof.
  unfold _match_template. split.
  - intros H tid kws Hin Hm. apply any_keyword_mentions in Hm.
    unfold keywords in *. cbn [match_in] in H. simpl in Hin.
    destruct Hin as [E | [E | [E | []]]]; injection E as <- <-;
      rewrite ?Hm in H;
      repeat lazymatch type of H with
             | context [if any_keyword ?t ?k then _ else _] =>
                 destruct (any_keyword t k) eqn:?
             end;
      try discriminate; vm_compute in H; discriminate.
  - apply match_in_none.
Qed.

Section Planner.

Context {Env : Type}.
Variable json_loads : string → option pyval.

(** C1.  A task in which a keyword of a template occurs, up to case,
    and no keyword of a template declared before it, is planned as that
    template's declared step list, in its order; the task "Build a REST
    API for a todo app" is planned as the steps of [code_project]:
    code, code, qa, writing; the task "Create a report", which holds a
    keyword of [code_project] too, is planned as [research_report],
    the template declared first. *)
Theorem plan_returns_first_matching_template :
  (∀ (o : @Orchestrator Env) task w earlier tid kws later,
     keywords = earlier ++ (tid, kws) :: later →
     mentions task kws →
     (∀ tid' kws', In (tid', kws') earlier → ¬ mentions task kws') →
     ∃ tpl, assoc tid WORKFLOW_TEMPLATES = Some tpl ∧
            _create_plan json_loads o task w = (w, inr (tpl_steps tpl)))
  ∧ (∀ (o : @Orchestrator Env) w,
       ∃ plan,
         _create_plan json_loads o "Build a REST API for a todo app" w
         = (w, inr plan) ∧
         assoc "code_project" WORKFLOW_TEMPLATES
         = Some {| tpl_name := "Code Project";
                   tpl_description := "Generate code with tests and documentation";
                   tpl_agents := ["code"; "qa"; "writing"];
                   tpl_steps := plan |} ∧
         map (dict_get "agent") plan
         = [Some (PStr "code"); Some (PStr "code"); Some (PStr "qa");
            Some (PStr "writing")])
  ∧ (∀ (o : @Orchestrator Env) w,
       mentions "Create a report" ["code"; "build"; "create"; "program"; "script"] ∧
       ∃ tpl,
         assoc "research_report" WORKFLOW_TEMPLATES = Some tpl ∧
         _create_plan json_loads o "Create a report" w = (w, inr (tpl_steps tpl))).
Proof.
  split; [| split].
  - intros o task w earlier tid kws later Hsplit Hkws Hearlier.
    assert (In (tid, kws) keywords) as Hin
      by (rewrite Hsplit; apply in_elt).
    destruct (declared_templates _ _ Hin) as [tpl Htpl].
    exists tpl. split; [done |].
    unfold _create_plan, _match_template.
    rewrite Hsplit, (match_in_first _ _ _ _ _ _ Hearlier Hkws), Htpl.
    reflexivity.
  - intros o w. eexists. split; [reflexivity |]. split; reflexivity.
  - intros o w. split.
    + apply any_keyword_mentions. reflexivity.
    + eexists. split; reflexivity.
Qed.

End Planner.

Lemma plan_returns_first_matching_template_witness :
  ∃ tpl, assoc "code_project" WORKFLOW_TEMPLATES = Some tpl ∧
         _create_plan Sample.loads (Sample.orchestrator None Sample.five_workers)
           "Build a REST API for a todo app" (Sample.world new_state)
         = (Sample.world new_state, inr (tpl_steps tpl)).
Proof.
  apply (proj1 (plan_returns_first_matching_template Sample.loads)
           (Sample.orchestrator None Sample.five_workers)
           "Build a REST API for a todo app" (Sample.world new_state)
           [ ("research_report", ["research"; "report"; "analysis"; "study"]);
             ("data_analysis", ["analyze"; "data"; "dataset"; "csv"]) ]
           "code_project" ["code"; "build"; "create"; "program"; "script"] []).
  - reflexivity.
  - apply any_keyword_mentions. vm_compute. reflexivity.
  - intros tid' kws' [E | [E | []]] Hm; injection E as <- <-;
      apply any_keyword_mentions in Hm; vm_compute in Hm; discriminate.
Defined.

(** ** The planner *)

Section Planner_fallback.

Context {Env : Type}.
Variable json_loads : string → option pyval.
Variable o : @Orchestrator Env.

Lemma create_plan_custom task :
  matches_no_template task →
  _create_plan json_loads o task = _create_custom_plan json_loads o task.
Proof.
  intros H. apply match_template_none in H.
  unfold _create_plan. by rewrite H.
Qed.

Lemma names_worker_reflect step :
  names_worker_b o step = true ↔ names_worker o step.
Proof.
  unfold names_worker_b, names_worker, registers. split.
  - destruct (dict_get "agent" step) as [[| | |id| |]|]; try done.
    destruct (assoc id (agents o)) eqn:E; [| done].
    intros _. exists id. by rewrite E.
  - intros (id & -> & [a ->]). done.
Qed.

Lemma keep_valid_dicts ds :
  Forall hashable_agent ds →
  keep_valid o (map PDict ds) = inr (registered_steps o ds).
Proof.
  induction 1 as [|d ds Hd _ IH]; [done |].
  cbn [map keep_valid]. rewrite IH.
  unfold hashable_agent, dict_get_default in Hd.
  unfold registered_steps. cbn [List.filter].
  unfold names_worker_b, dict_get_default.
  destruct (dict_get "agent" d) as [[| | |id| |]|]; simpl in *; try done.
  by destruct (assoc id (agents o)).
Qed.

Lemma keep_valid_sound steps kept :
  keep_valid o steps = inr kept → Forall (names_worker o) kept.
Proof.
  revert kept; induction steps as [|step steps IH]; intros kept; simpl.
  - intros [= <-]. constructor.
  - destruct step as [| | | | |d]; try done.
    destruct (find_agent o (dict_get_default "agent" PNone d)) as [|found] eqn:Ef;
      [done |].
    destruct (keep_valid o steps) as [|kept'] eqn:Ek; [done |].
    specialize (IH _ eq_refl).
    destruct found as [a|]; intros [= <-]; [| done].
    constructor; [| done].
    unfold dict_get_default in Ef.
    destruct (dict_get "agent" d) as [[| | |id| |]|] eqn:Ed; simpl in Ef; try done.
    exists id. split; [done |]. injection Ef as Ef. by exists a.
Qed.

Lemma registered_steps_length ds :
  (length (registered_steps o ds) ≤ length ds)%nat.
Proof. apply filter_length_le. Qed.

Lemma match_template_catalogue task tpl :
  _match_template task = Some tpl →
  In tpl (map snd WORKFLOW_TEMPLATES).
Proof.
  unfold _match_template, keywords. cbn [match_in].
  repeat lazymatch goal with
         | |- context [if any_keyword ?t ?k then _ else _] =>
             destruct (any_keyword t k)
         end;
    try discriminate; intros [= <-]; simpl; tauto.
Qed.

Lemma builtin_step_names_worker agent action :
  (∀ id, In id builtin_workers → registers o id) →
  In agent builtin_workers →
  names_worker o [("agent", PStr agent); ("action", PStr action)].
Proof. intros H Hin. exists agent. split; [done | by apply H]. Qed.

Lemma catalogue_names_workers tpl :
  (∀ id, In id builtin_workers → registers o id) →
  In tpl (map snd WORKFLOW_TEMPLATES) →
  tpl_steps tpl ≠ [] ∧ Forall (names_worker o) (tpl_steps tpl).
Proof.
  intros H. simpl.
  intros [<- | [<- | [<- | []]]]; (split; [done |]); simpl;
    repeat constructor; apply builtin_step_names_worker;
    (done || (unfold builtin_workers; simpl; tauto)).
Qed.

(** C4.  When no template matches the task and the text returned by
    the generation service cannot be decoded as JSON, the planner
    returns the default plan of two steps, research then writing, and
    raises nothing. *)
Theorem undecodable_response_gives_default_plan task w w1 response :
  matches_no_template task →
  _call_llm (self o) (_build_messages (self o) (planning_prompt o task)) w
  = (w1, inr response) →
  json_loads response = None →
  _create_plan json_loads o task w = (w1, inr default_plan) ∧
  map (dict_get "agent") default_plan
  = [Some (PStr "research"); Some (PStr "writing")].
Proof.
  intros Hno Hcall Hjson. split; [| reflexivity].
  rewrite create_plan_custom by done.
  unfold _create_custom_plan, mbind, M_bind.
  by rewrite Hcall, Hjson.
Qed.

End Planner_fallback.

Lemma undecodable_response_gives_default_plan_witness :
  ∃ w1,
    _create_plan Sample.loads
      (Sample.planner "Sure, here is the plan")
      "Plan a trip to Paris" (Sample.world new_state)
    = (w1, inr default_plan) ∧
    map (dict_get "agent") default_plan
    = [Some (PStr "research"); Some (PStr "writing")].
Proof.
  eexists.
  apply (undecodable_response_gives_default_plan Sample.loads
           (Sample.planner "Sure, here is the plan")
           "Plan a trip to Paris" (Sample.world new_state) _
           "Sure, here is the plan").
  - apply match_template_none. reflexivity.
  - reflexivity.
  - reflexivity.
Defined.

Section Planner_invariant.

Context {Env : Type}.
Variable json_loads : string → option pyval.
Variable o : @Orchestrator Env.

(** C5, amended.  When the registry holds the five workers that the
    catalogue and the built-in plans name (research, code, data,
    writing, qa), every plan the planner returns is non-empty and each
    of its steps names a registered worker. *)
Theorem returned_plan_names_registered_workers task w w' plan :
  (∀ id, In id builtin_workers → registers o id) →
  _create_plan json_loads o task w = (w', inr plan) →
  plan ≠ [] ∧ Forall (names_worker o) plan.
Proof.
  intros Hreg. unfold _create_plan.
  destruct (_match_template task) as [tpl|] eqn:Et.
  - intros [= <- <-]. apply catalogue_names_workers; [done |].
    by apply match_template_catalogue with task.
  - unfold _create_custom_plan, mbind, M_bind, lift, mret, M_ret.
    destruct (_call_llm _ _ w) as [w1 [e|response]]; [done |].
    assert (∀ p : list pydict,
              p = default_plan ∨ p = fallback_plan →
              p ≠ [] ∧ Forall (names_worker o) p) as Hbuiltin.
    { intros p [-> | ->]; (split; [done |]);
        repeat constructor; apply builtin_step_names_worker;
        (done || (unfold builtin_workers; simpl; tauto)). }
    destruct (json_loads response) as [decoded|].
    + destruct (py_iter decoded) as [e|steps]; [done |].
      destruct (keep_valid o steps) as [e|kept] eqn:Ek; [done |].
      apply keep_valid_sound in Ek.
      destruct kept as [|step kept]; intros [= <- <-].
      * apply Hbuiltin. by right.
      * done.
    + intros [= <- <-]. apply Hbuiltin. by left.
Qed.

(** C8, amended.  When no template matches and the response decodes
    to an array of objects whose agents can be hashed, the planner
    returns the generated steps that name a registered worker, in
    their order, or the two-step fallback plan when there is none; the
    plan has at least one step and at most as many as were generated
    (two for the fallback).  No bound of five is applied. *)
Theorem generated_plan_keeps_registered_steps task w w1 response ds :
  matches_no_template task →
  _call_llm (self o) (_build_messages (self o) (planning_prompt o task)) w
  = (w1, inr response) →
  json_loads response = Some (PList (map PDict ds)) →
  Forall hashable_agent ds →
  ∃ plan,
    _create_plan json_loads o task w = (w1, inr plan) ∧
    plan = match registered_steps o ds with
           | [] => fallback_plan
           | _ => registered_steps o ds
           end ∧
    (1 ≤ length plan ≤ Nat.max 2 (length ds))%nat.
Proof.
  intros Hno Hcall Hjson Hds.
  rewrite create_plan_custom by done.
  unfold _create_custom_plan, mbind, M_bind, lift, mret, M_ret.
  rewrite Hcall, Hjson. cbn [py_iter].
  rewrite keep_valid_dicts by done.
  pose proof (registered_steps_length o ds) as Hlen.
  destruct (registered_steps o ds) as [|step kept]; eexists;
    (split; [reflexivity |]); (split; [reflexivity |]); simpl in *; lia.
Qed.

End Planner_invariant.

Lemma returned_plan_names_registered_workers_witness :
  ∃ w' plan,
    _create_plan Sample.loads
      (Sample.planner Sample.unknown_step_text)
      "Plan a trip to Paris" (Sample.world new_state) = (w', inr plan) ∧
    plan ≠ [] ∧
    Forall (names_worker
              (Sample.planner Sample.unknown_step_text)) plan.
Proof.
  eexists _, _. split; [reflexivity |].
  eapply (returned_plan_names_registered_workers Sample.loads _
            "Plan a trip to Paris" (Sample.world new_state)).
  - intros id Hin. unfold builtin_workers in Hin. simpl in Hin.
    destruct Hin as [<- | [<- | [<- | [<- | [<- | []]]]]]; by eexists.
  - reflexivity.
Defined.

(** C5 as stated fails: with a registry that holds only the code
    worker, the task "Research the market" is planned from the
    research_report template, whose first step names the worker
    research, which is not registered. *)
Lemma returned_plan_names_registered_workers_counterexample :
  ∃ w' plan step,
    _create_plan Sample.loads Sample.code_only "Research the market"
      (Sample.world new_state) = (w', inr plan) ∧
    In step plan ∧
    dict_get "agent" step = Some (PStr "research") ∧
    assoc "research" (agents Sample.code_only) = None ∧
    ¬ names_worker Sample.code_only step.
Proof.
  eexists _, _, (mk_step "research" "gather_information").
  split; [reflexivity |]. split; [by left |].
  split; [reflexivity |]. split; [reflexivity |].
  intros (id & Hid & [a Ha]). injection Hid as <-. discriminate Ha.
Qed.

Lemma generated_plan_keeps_registered_steps_witness :
  ∃ w1 plan,
    _create_plan Sample.loads
      (Sample.planner Sample.six_steps_text)
      "Plan a trip to Paris" (Sample.world new_state) = (w1, inr plan) ∧
    length plan = 6%nat.
Proof.
  destruct (generated_plan_keeps_registered_steps Sample.loads
              (Sample.planner Sample.six_steps_text)
              "Plan a trip to Paris" (Sample.world new_state)
              (fst (_call_llm
                      (self (Sample.planner Sample.six_steps_text))
                      (_build_messages
                         (self (Sample.planner Sample.six_steps_text))
                         (planning_prompt
                            (Sample.planner Sample.six_steps_text)
                            "Plan a trip to Paris"))
                      (Sample.world new_state)))
              Sample.six_steps_text
              [ mk_step "research" "find sources"; mk_step "data" "tabulate";
                mk_step "code" "plot"; mk_step "writing" "draft";
                mk_step "qa" "review"; mk_step "writing" "revise" ])
    as (plan & Hplan & Heq & _).
  - apply match_template_none. reflexivity.
  - reflexivity.
  - reflexivity.
  - repeat constructor.
  - eexists _, plan. split; [exact Hplan |]. rewrite Heq. reflexivity.
Defined.

(** C8 as stated fails: a generated plan of one valid step is returned
    as it is (length 1), and so is one of six valid steps (length 6). *)
Lemma generated_plan_length_counterexample :
  (∃ w1 plan,
     _create_plan Sample.loads
       (Sample.planner Sample.one_step_text)
       "Plan a trip to Paris" (Sample.world new_state) = (w1, inr plan) ∧
     _match_template "Plan a trip to Paris" = None ∧
     Sample.loads Sample.one_step_text
     = Some (PList [PDict (mk_step "research" "look it up")]) ∧
     length plan = 1%nat) ∧
  (∃ w1 plan,
     _create_plan Sample.loads
       (Sample.planner Sample.six_steps_text)
       "Plan a trip to Paris" (Sample.world new_state) = (w1, inr plan) ∧
     length plan = 6%nat).
Proof.
  split.
  - eexists _, _. split; [reflexivity |]. repeat split; reflexivity.
  - eexists _, _. split; reflexivity.
Qed.

(** ** The step executor *)

Section Executor.

Context {Env : Type}.
Variable py_repr : pyval → string.
Variable o : @Orchestrator Env.

Lemma execute_step_registered step id agent w :
  dict_get "agent" step = Some (PStr id) →
  assoc id (agents o) = Some agent →
  _execute_step py_repr o step w
  = match execute agent (step_action step) (step_input o id (step_action step) (state w)) (env w) with
    | (st', env', inr result) =>
        (after_worker
           (add_message (result_message py_repr o id result)
              (set_result id (PDict result) st')) env' w,
         inr result)
    | (st', env', inl e) => (after_worker st' env' w, inr (failed_step e id))
    end.
Proof.
  intros Hid Hagent. unfold _execute_step. rewrite Hid. cbn [find_agent].
  rewrite Hagent.
  unfold mbind, M_bind, modify_state, try_except, call_worker, mret, M_ret.
  cbn [with_state state env].
  destruct (execute agent _ _ (env w)) as [[st' env'] [e|result]]; reflexivity.
Qed.

Lemma execute_step_unregistered step v w :
  dict_get "agent" step = Some v →
  find_agent o v = inr None →
  _execute_step py_repr o step w = (w, inr (not_available py_repr v)).
Proof.
  intros Hv Hfind. unfold _execute_step. rewrite Hv.
  destruct v as [| | |id| |]; simpl in Hfind |- *; try done.
  injection Hfind as ->. done.
Qed.

Lemma find_agent_hashable v :
  hashable v = true →
  find_agent o v = inr None ∨
  ∃ id agent, v = PStr id ∧ assoc id (agents o) = Some agent.
Proof.
  destruct v as [| | |id| |]; try done; try by left.
  intros _. simpl. destruct (assoc id (agents o)) as [agent|] eqn:E.
  - right. by exists id, agent.
  - by left.
Qed.

(** A step with a hashable agent always yields a result, and the
    executor itself leaves the iteration counter alone. *)
Lemma execute_step_returns step w :
  has_agent step →
  ∃ w' result,
    _execute_step py_repr o step w = (w', inr result) ∧
    (keeps_iteration o → iteration (state w') = iteration (state w)).
Proof.
  intros (v & Hv & Hhash).
  destruct (find_agent_hashable v Hhash) as [Hnone | (id & agent & -> & Hagent)].
  - rewrite (execute_step_unregistered _ _ _ Hv Hnone). by eexists _, _.
  - rewrite (execute_step_registered _ _ _ _ Hv Hagent).
    destruct (execute agent _ _ (env w)) as [[st' env'] [e|result]] eqn:E;
      eexists _, _; (split; [reflexivity |]); intros Hkeep;
      specialize (Hkeep id agent (step_action step)
                    (step_input o id (step_action step) (state w)) (env w) Hagent);
      rewrite E in Hkeep; apply Hkeep.
Qed.

End Executor.

Lemma result_entries_app h1 h2 :
  result_entries (h1 ++ h2) = (result_entries h1 + result_entries h2)%nat.
Proof. unfold result_entries. by rewrite List.filter_app, length_app. Qed.

Section Step_trace.

Context {Env : Type}.
Variable py_repr : pyval → string.
Variable o : @Orchestrator Env.

(** C6, amended.  For a step whose worker is registered, the outbound
    message (orchestrator to worker, the instruction) is appended to
    the messages and the history before the worker is invoked.  When
    the worker returns a result, whatever its success flag, the result
    is stored and then the inbound message (worker to orchestrator,
    the stringified output and the metadata) is appended, in that
    order.  When the worker raises, nothing is appended after the
    invocation: the state is left as the worker left it. *)
Theorem step_messages_trace step id agent w st' env' r :
  dict_get "agent" step = Some (PStr id) →
  assoc id (agents o) = Some agent →
  execute agent (step_action step)
    (step_input o id (step_action step) (state w)) (env w) = (st', env', r) →
  let outbound := task_message o id (step_action step) in
  messages (step_input o id (step_action step) (state w))
  = messages (state w) ++ [outbound] ∧
  history (step_input o id (step_action step) (state w))
  = history (state w) ++ [HMessage outbound] ∧
  sender outbound = agent_id (self o) ∧
  recipient outbound = id ∧
  content outbound = step_action step ∧
  match r with
  | inr result =>
      let inbound := result_message py_repr o id result in
      ∃ w', _execute_step py_repr o step w = (w', inr result) ∧
            messages (state w') = messages st' ++ [inbound] ∧
            history (state w')
            = history st' ++ [HResult id (PDict result); HMessage inbound] ∧
            sender inbound = id ∧
            recipient inbound = agent_id (self o) ∧
            content inbound
            = PStr (py_str py_repr
                      (dict_get_default "output" (PStr EmptyString) result)) ∧
            metadata inbound
            = (let m := dict_get_default "metadata" (PDict []) result in
               if truthy m then m else PDict [])
  | inl e =>
      ∃ w', _execute_step py_repr o step w = (w', inr (failed_step e id)) ∧
            state w' = st'
  end.
Proof.
  intros Hid Hagent Hexec outbound.
  rewrite (execute_step_registered _ _ _ _ _ _ Hid Hagent), Hexec.
  repeat (split; [reflexivity |]).
  destruct r as [e|result]; eexists; (split; [reflexivity |]).
  - reflexivity.
  - cbn [state after_worker add_message set_result messages history].
    rewrite <- app_assoc. repeat split; reflexivity.
Qed.

(** C10.  A registered worker that returns a result has it stored in
    [results] under its identifier, with a new ["result"] entry in the
    history, also when the result reports [success = False]; the
    executor stores nothing when the worker raises (the results and
    the history stay as the worker left them) or is not registered
    (the whole state is untouched). *)
Theorem step_stores_returned_result :
  (∀ step id agent w st' env' result,
     dict_get "agent" step = Some (PStr id) →
     assoc id (agents o) = Some agent →
     execute agent (step_action step)
       (step_input o id (step_action step) (state w)) (env w)
     = (st', env', inr result) →
     ∃ w', _execute_step py_repr o step w = (w', inr result) ∧
           results (state w') = <[id := PDict result]> (results st') ∧
           get_result id (state w') = Some (PDict result) ∧
           result_entries (history (state w'))
           = S (result_entries (history st')) ∧
           In (HResult id (PDict result)) (history (state w')))
  ∧ (∀ step id agent w st' env' e,
       dict_get "agent" step = Some (PStr id) →
       assoc id (agents o) = Some agent →
       execute agent (step_action step)
         (step_input o id (step_action step) (state w)) (env w)
       = (st', env', inl e) →
       ∃ w' failed, _execute_step py_repr o step w = (w', inr failed) ∧
             results (state w') = results st' ∧
             history (state w') = history st' ∧
             results (step_input o id (step_action step) (state w))
             = results (state w) ∧
             result_entries
               (history (step_input o id (step_action step) (state w)))
             = result_entries (history (state w)))
  ∧ (∀ step v w,
       dict_get "agent" step = Some v →
       find_agent o v = inr None →
       ∃ failed, _execute_step py_repr o step w = (w, inr failed)).
Proof.
  split; [| split].
  - intros step id agent w st' env' result Hid Hagent Hexec.
    rewrite (execute_step_registered _ _ _ _ _ _ Hid Hagent), Hexec.
    eexists. split; [reflexivity |].
    cbn [state after_worker add_message set_result results history].
    unfold get_result. cbn [results add_message set_result].
    split; [reflexivity |]. split; [apply lookup_insert_eq |].
    split.
    + rewrite !result_entries_app. cbn. lia.
    + apply in_or_app. left. apply in_or_app. right. by left.
  - intros step id agent w st' env' e Hid Hagent Hexec.
    rewrite (execute_step_registered _ _ _ _ _ _ Hid Hagent), Hexec.
    eexists _, _. split; [reflexivity |].
    repeat (split; [reflexivity |]).
    unfold step_input. cbn [history add_message set_current_agent].
    rewrite result_entries_app. cbn. lia.
  - intros step v w Hv Hfind.
    rewrite (execute_step_unregistered _ _ _ _ _ Hv Hfind). by eexists.
Qed.

End Step_trace.

Lemma step_messages_trace_witness :
  ∃ w' result,
    _execute_step Sample.repr (Sample.lone Sample.research_declining)
      (mk_step "research" "gather_information")
      (Sample.world new_state) = (w', inr result) ∧
    dict_get "success" result = Some (PBool false) ∧
    map (λ m, (sender m, recipient m, message_type m)) (messages (state w'))
    = [ ("orchestrator", "research", "task");
        ("research", "orchestrator", "result") ] ∧
    map is_result_entry (history (state w')) = [false; true; false].
Proof.
  pose proof (step_messages_trace Sample.repr
                (Sample.lone Sample.research_declining)
                (mk_step "research" "gather_information") "research"
                Sample.research_declining
                (Sample.world new_state) _ _ _ eq_refl eq_refl eq_refl) as H.
  cbv zeta in H.
  destruct H as (_ & _ & _ & _ & _ & w' & Hstep & Hmsgs & Hhist & _).
  exists w'. eexists. split; [exact Hstep |].
  split; [reflexivity |].
  rewrite Hmsgs, Hhist. split; reflexivity.
Defined.

(** C6 as stated fails: when the worker of a step raises, the outbound
    message is the only message logged for the step; no inbound
    message follows the invocation. *)
Lemma step_messages_trace_counterexample :
  ∃ w' result,
    _execute_step Sample.repr
      (Sample.lone (Sample.research_raising
                      (Exn "ConnectionError" "search backend down")))
      (mk_step "research" "gather_information")
      (Sample.world new_state) = (w', inr result) ∧
    dict_get "success" result = Some (PBool false) ∧
    map (λ m, (sender m, recipient m, message_type m)) (messages (state w'))
    = [("orchestrator", "research", "task")] ∧
    ¬ (∃ m, In m (messages (state w')) ∧ sender m = "research").
Proof.
  eexists _, _. split; [cbv; reflexivity |].
  split; [reflexivity |]. split; [reflexivity |].
  intros (m & [<- | []] & Hm). discriminate Hm.
Qed.

Lemma step_stores_returned_result_witness :
  ∃ w' result,
    _execute_step Sample.repr (Sample.lone Sample.research_declining)
      (mk_step "research" "gather_information")
      (Sample.world new_state) = (w', inr result) ∧
    dict_get "success" result = Some (PBool false) ∧
    get_result "research" (state w') = Some (PDict result) ∧
    result_entries (history (state w')) = 1%nat.
Proof.
  destruct (proj1 (step_stores_returned_result Sample.repr
                     (Sample.lone Sample.research_declining))
              (mk_step "research" "gather_information") "research"
              Sample.research_declining
              (Sample.world new_state) _ _ _ eq_refl eq_refl eq_refl)
    as (w' & Hstep & _ & Hget & Hcount & _).
  exists w'. eexists. split; [exact Hstep |].
  split; [reflexivity |]. split; [exact Hget |]. exact Hcount.
Defined.

(** ** The run loop *)

Section Run_loop.

Context {Env : Type}.
Variable py_repr : pyval → string.
Variable max_iterations : Z.
Variable o : @Orchestrator Env.

Lemma run_steps_cons step plan acc w :
  has_agent step →
  ∃ w1 result,
    _execute_step py_repr o step w = (w1, inr result) ∧
    (keeps_iteration o → iteration (state w1) = iteration (state w)) ∧
    run_steps py_repr max_iterations o (step :: plan) acc w
    = if max_iterations <=? iteration (state w1) + 1
      then (with_state incr_iteration w1, inr (acc ++ [result]))
      else run_steps py_repr max_iterations o plan (acc ++ [result])
             (with_state incr_iteration w1).
Proof.
  intros Hstep.
  destruct (execute_step_returns py_repr o step w Hstep) as (w1 & result & Hexec & Hit).
  exists w1, result. split; [done |]. split; [done |].
  destruct Hstep as (v & Hv & _).
  cbn [run_steps]. rewrite Hv.
  unfold mbind, M_bind. rewrite Hexec.
  unfold modify_state, get_state. cbn [with_state state incr_iteration iteration].
  by destruct (max_iterations <=? iteration (state w1) + 1).
Qed.

(** The loop appends one result per executed step, adds one to the
    counter for each, and stops after the step that brings the counter
    to the ceiling. *)
Lemma run_steps_count plan :
  keeps_iteration o →
  Forall has_agent plan →
  ∀ acc w,
    ∃ w' results,
      run_steps py_repr max_iterations o plan acc w = (w', inr (acc ++ results)) ∧
      iteration (state w') = iteration (state w) + Z.of_nat (length results) ∧
      length results
      = Nat.min (length plan)
          (Z.to_nat (Z.max 1 (max_iterations - iteration (state w)))).
Proof.
  intros Hkeep Hplan. induction Hplan as [|step plan Hstep _ IH]; intros acc w.
  - exists w, []. cbn. rewrite app_nil_r. repeat split; lia.
  - destruct (run_steps_cons step plan acc w Hstep)
      as (w1 & result & _ & Hit & ->).
    specialize (Hit Hkeep). rewrite Hit.
    destruct (Z.leb_spec max_iterations (iteration (state w) + 1)) as [Hstop | Hgo].
    + exists (with_state incr_iteration w1), [result].
      cbn [with_state state incr_iteration iteration length].
      repeat split; lia.
    + destruct (IH (acc ++ [result]) (with_state incr_iteration w1))
        as (w' & results & -> & Hcount & Hlen).
      cbn [with_state state incr_iteration iteration] in Hcount, Hlen.
      exists w', (result :: results).
      rewrite <- app_assoc. cbn [app length].
      repeat split; lia.
Qed.

(** Under the same conditions the loop is the specification's loop on
    the steps the ceiling lets through: same final world, same
    results. *)
Lemma run_steps_refines plan :
  keeps_iteration o →
  Forall has_agent plan →
  ∀ acc w,
    ∃ w' results,
      run_steps py_repr max_iterations o plan acc w = (w', inr (acc ++ results)) ∧
      run_each_once py_repr o
        (take (steps_to_run max_iterations (iteration (state w)) (length plan)) plan) w
      = (w', inr results).
Proof.
  intros Hkeep Hplan. induction Hplan as [|step plan Hstep _ IH]; intros acc w.
  - exists w, []. cbn. by rewrite app_nil_r.
  - destruct (run_steps_cons step plan acc w Hstep)
      as (w1 & result & Hexec & Hit & ->).
    specialize (Hit Hkeep). rewrite Hit.
    destruct (Z.leb_spec max_iterations (iteration (state w) + 1)) as [Hstop | Hgo].
    + exists (with_state incr_iteration w1), [result]. split; [done |].
      replace (steps_to_run max_iterations (iteration (state w))
                 (length (step :: plan))) with 1%nat
        by (unfold steps_to_run; cbn [length]; lia).
      cbn [take run_each_once]. unfold mbind, M_bind. rewrite Hexec.
      reflexivity.
    + destruct (IH (acc ++ [result]) (with_state incr_iteration w1))
        as (w' & results & -> & Hspec).
      cbn [with_state state incr_iteration iteration] in Hspec.
      rewrite Hit in Hspec.
      exists w', (result :: results). rewrite <- app_assoc.
      split; [done |].
      replace (steps_to_run max_iterations (iteration (state w))
                 (length (step :: plan)))
        with (S (steps_to_run max_iterations (iteration (state w) + 1)
                   (length plan)))
        by (unfold steps_to_run; cbn [length]; lia).
      cbn [take run_each_once]. unfold mbind at 1, M_bind at 1. rewrite Hexec.
      unfold mbind at 1, M_bind at 1, modify_state.
      unfold mbind at 1, M_bind at 1. rewrite Hspec. reflexivity.
Qed.

(** C2, amended.  For a plan whose steps each have an ["agent"] entry
    that can be hashed (every plan the planner returns is one) and
    workers that leave the counter alone, the loop does what the
    specification's loop does on the first
    min(len(plan), max(1, N - iteration)) steps of the plan and nothing
    else: each of them is executed once, in order, by the step
    executor, the counter is increased by one right after each, the
    results are theirs in that order, and the final state and outside
    world are the same.  Hence the counter grows by the number of
    executed steps, and never more than the ceiling N of them are
    executed when N is at least 1 and the counter starts at 0 or
    above.  (A ceiling of 0 or less still lets the first step of a
    plan run.)  The first step of a plan is executed whatever the
    ceiling, and the loop stops right after it exactly when the counter
    has then reached the ceiling.  With ceiling 1, a fresh state and a
    plan of three steps, the loop executes the first step only and
    hands its single result on. *)
Theorem run_loop_respects_ceiling plan w :
  keeps_iteration o →
  Forall has_agent plan →
  ∃ w' results,
    run_steps py_repr max_iterations o plan [] w = (w', inr results) ∧
    run_each_once py_repr o
      (take (steps_to_run max_iterations (iteration (state w)) (length plan)) plan) w
    = (w', inr results) ∧
    iteration (state w') = iteration (state w) + Z.of_nat (length results) ∧
    length results
    = Nat.min (length plan)
        (Z.to_nat (Z.max 1 (max_iterations - iteration (state w)))) ∧
    (1 ≤ max_iterations → 0 ≤ iteration (state w) →
     Z.of_nat (length results) ≤ max_iterations) ∧
    (∀ step rest, plan = step :: rest →
       ∃ w1 r1,
         _execute_step py_repr o step w = (w1, inr r1) ∧
         iteration (state w1) = iteration (state w) ∧
         run_steps py_repr max_iterations o plan [] w
         = if max_iterations <=? iteration (state w) + 1
           then (with_state incr_iteration w1, inr [r1])
           else run_steps py_repr max_iterations o rest [r1]
                  (with_state incr_iteration w1)) ∧
    (max_iterations = 1 → iteration (state w) = 0 →
     ∀ s1 s2 s3, plan = [s1; s2; s3] →
       ∃ w1 r1, _execute_step py_repr o s1 w = (w1, inr r1) ∧
                results = [r1] ∧
                w' = with_state incr_iteration w1).
Proof.
  intros Hkeep Hplan.
  destruct (run_steps_count plan Hkeep Hplan [] w) as (w' & results & Hrun & Hit & Hlen).
  destruct (run_steps_refines plan Hkeep Hplan [] w) as (w'' & results' & Hrun' & Hspec).
  rewrite Hrun in Hrun'. cbn [app] in Hrun, Hrun'.
  injection Hrun' as <- <-.
  exists w', results.
  split; [done |]. split; [done |]. split; [done |]. split; [done |].
  split; [lia |]. split.
  - intros step rest ->.
    apply Forall_cons in Hplan as [Hstep _].
    destruct (run_steps_cons step rest [] w Hstep) as (w1 & r1 & Hexec & Hit1 & Hcons).
    exists w1, r1. split; [done |]. split; [by apply Hit1 |].
    rewrite Hcons, (Hit1 Hkeep). reflexivity.
  - intros HN Hfresh s1 s2 s3 ->.
    apply Forall_cons in Hplan as [Hs1 _].
    destruct (run_steps_cons s1 [s2; s3] [] w Hs1) as (w1 & r1 & Hexec & Hit1 & Hcons).
    rewrite Hcons, (Hit1 Hkeep), HN, Hfresh in Hrun. cbn in Hrun.
    exists w1, r1. split; [done |]. by injection Hrun as <- <-.
Qed.

(** C3, amended.  When the registered worker of a step raises, the
    executor returns a result with [success = False] whose [error] is
    the message of the exception, and raises nothing.  The loop then
    goes on exactly as after any other step: it counts the step and
    runs the rest of the plan unless the ceiling is reached. *)
Theorem worker_exception_is_absorbed step rest acc id agent w st' env' e :
  dict_get "agent" step = Some (PStr id) →
  assoc id (agents o) = Some agent →
  execute agent (step_action step)
    (step_input o id (step_action step) (state w)) (env w) = (st', env', inl e) →
  let failed := failed_step e id in
  _execute_step py_repr o step w = (after_worker st' env' w, inr failed) ∧
  dict_get "success" failed = Some (PBool false) ∧
  dict_get "error" failed = Some (PStr (exn_msg e)) ∧
  (run_steps py_repr max_iterations o (step :: rest) acc w
   = if max_iterations <=? iteration st' + 1
     then (with_state incr_iteration (after_worker st' env' w),
           inr (acc ++ [failed]))
     else run_steps py_repr max_iterations o rest (acc ++ [failed])
            (with_state incr_iteration (after_worker st' env' w))) ∧
  (keeps_iteration o → Forall has_agent rest →
   iteration st' + 1 + Z.of_nat (length rest) ≤ max_iterations →
   ∃ w' later,
     run_steps py_repr max_iterations o (step :: rest) acc w
     = (w', inr (acc ++ failed :: later)) ∧
     length later = length rest).
Proof.
  intros Hid Hagent Hexec failed.
  assert (_execute_step py_repr o step w = (after_worker st' env' w, inr failed))
    as Hstep
    by (by rewrite (execute_step_registered _ _ _ _ _ _ Hid Hagent), Hexec).
  assert (run_steps py_repr max_iterations o (step :: rest) acc w
          = if max_iterations <=? iteration st' + 1
            then (with_state incr_iteration (after_worker st' env' w),
                  inr (acc ++ [failed]))
            else run_steps py_repr max_iterations o rest (acc ++ [failed])
                   (with_state incr_iteration (after_worker st' env' w)))
    as Hloop.
  { cbn [run_steps]. rewrite Hid.
    unfold mbind, M_bind. rewrite Hstep.
    unfold modify_state, get_state.
    cbn [with_state state incr_iteration iteration after_worker].
    by destruct (max_iterations <=? iteration st' + 1). }
  split; [done |]. split; [reflexivity |]. split; [reflexivity |].
  split; [done |].
  intros Hkeep Hrest Hroom. rewrite Hloop.
  destruct (Z.leb_spec max_iterations (iteration st' + 1)) as [Hstop | Hgo].
  - eexists _, []. split; [reflexivity |].
    destruct rest; [done | cbn [length] in Hroom; lia].
  - destruct (run_steps_count rest Hkeep Hrest (acc ++ [failed])
                (with_state incr_iteration (after_worker st' env' w)))
      as (w' & later & -> & _ & Hlen).
    cbn [with_state state incr_iteration iteration after_worker] in Hlen.
    exists w', later. rewrite <- app_assoc. split; [done | lia].
Qed.

End Run_loop.

Lemma five_workers_keep_iteration (c : option (@Client unit)) :
  keeps_iteration (Sample.orchestrator c Sample.five_workers).
Proof.
  intros id agent action st env H. cbn in H.
  repeat lazymatch type of H with
         | (if ?b then _ else _) = _ => destruct b; [by injection H as <- |]
         end.
  discriminate.
Qed.

Lemma run_loop_respects_ceiling_witness :
  ∃ w' results,
    run_steps Sample.repr 1 (Sample.orchestrator None Sample.five_workers)
      [ mk_step "code" "generate_code"; mk_step "qa" "code_review";
        mk_step "writing" "create_documentation" ] []
      (Sample.world new_state) = (w', inr results) ∧
    run_each_once Sample.repr (Sample.orchestrator None Sample.five_workers)
      [ mk_step "code" "generate_code" ] (Sample.world new_state)
    = (w', inr results) ∧
    length results = 1%nat ∧
    iteration (state w') = 1.
Proof.
  destruct (run_loop_respects_ceiling Sample.repr 1
              (Sample.orchestrator None Sample.five_workers)
              [ mk_step "code" "generate_code"; mk_step "qa" "code_review";
                mk_step "writing" "create_documentation" ]
              (Sample.world new_state))
    as (w' & results & Hrun & Hspec & Hit & Hlen & _).
  - apply five_workers_keep_iteration.
  - repeat constructor; eexists; (split; [reflexivity | reflexivity]).
  - exists w', results. split; [exact Hrun |]. split; [exact Hspec |].
    split; [exact Hlen |]. rewrite Hit, Hlen. reflexivity.
Defined.

(** C2 as stated fails: with the ceiling set to 0 the loop still
    executes the first step of a plan, one step more than the ceiling. *)
Lemma run_loop_respects_ceiling_counterexample :
  ∃ w' results,
    run_steps Sample.repr 0 (Sample.orchestrator None Sample.five_workers)
      [mk_step "research" "gather_information"] []
      (Sample.world new_state) = (w', inr results) ∧
    length results = 1%nat ∧
    iteration (state w') = 1 ∧
    ¬ (Z.of_nat (length results) ≤ 0).
Proof.
  eexists _, _. split; [cbv; reflexivity |].
  split; [reflexivity |]. split; [reflexivity |]. cbn. lia.
Qed.

Lemma worker_exception_is_absorbed_witness :
  ∃ w' results,
    run_steps Sample.repr 10
      (Sample.lone (Sample.research_raising
                      (Exn "ConnectionError" "search backend down")))
      [ mk_step "research" "gather_information"; mk_step "research" "try again" ]
      [] (Sample.world new_state) = (w', inr results) ∧
    map (dict_get "error") results
    = [ Some (PStr "search backend down"); Some (PStr "search backend down") ].
Proof.
  destruct (worker_exception_is_absorbed Sample.repr 10
              (Sample.lone (Sample.research_raising
                              (Exn "ConnectionError" "search backend down")))
              (mk_step "research" "gather_information")
              [mk_step "research" "try again"] [] "research"
              (Sample.research_raising
                 (Exn "ConnectionError" "search backend down"))
              (Sample.world new_state) _ _
              (Exn "ConnectionError" "search backend down")
              eq_refl eq_refl eq_refl)
    as (_ & _ & _ & Hloop & _).
  eexists _, _. split; [rewrite Hloop; cbv; reflexivity |]. reflexivity.
Defined.

(** C3 as stated fails twice over: an exception raised without a
    message gives an empty [error], and with the ceiling at 1 the step
    after the failed one is never executed. *)
Lemma worker_exception_is_absorbed_counterexample :
  ∃ w' failed,
    run_steps Sample.repr 1
      (Sample.lone (Sample.research_raising (Exn "ValueError" EmptyString)))
      [ mk_step "research" "gather_information"; mk_step "research" "try again" ]
      [] (Sample.world new_state) = (w', inr [failed]) ∧
    dict_get "success" failed = Some (PBool false) ∧
    dict_get "error" failed = Some (PStr EmptyString) ∧
    map content (messages (state w')) = [PStr "gather_information"].
Proof.
  eexists _, _. split; [cbv; reflexivity |].
  split; [reflexivity |]. split; reflexivity.
Qed.

(** ** Synthesis *)

Section Synthesis.

Context {Env : Type}.
Variable py_repr : pyval → string.
Variable o : @Orchestrator Env.

(** Every call of the completion service by an agent that has a
    client is logged in [requests]; without a client no call is made. *)
Lemma call_llm_requests (a : @BaseAgent Env) msgs w :
  requests (_call_llm a msgs w).1
  = match client a with
    | Some _ => requests w ++ [msgs]
    | None => requests w
    end.
Proof.
  unfold _call_llm. destruct (client a) as [create|]; [| done].
  destruct (create _ _ _) as [env' [e|response]]; [done |].
  by destruct (choices response).
Qed.

Lemma collect_outputs_none plan results :
  Forall (λ r, truthy (dict_get_default "success" PNone r) = false) results →
  collect_outputs py_repr o plan results = inr [].
Proof.
  intros H. revert plan. induction H as [|r results Hr _ IH]; intros plan.
  - by destruct plan.
  - destruct plan as [|step plan]; [done |]. cbn [collect_outputs].
    rewrite Hr. apply IH.
Qed.

(** C9.  When no result of the run has a true [success], synthesis
    returns the fixed message "No successful outputs from agents." and
    leaves the world as it was: no request is submitted to the
    generation service and the usage counters do not move. *)
Theorem no_success_no_generation_call task plan results w :
  Forall (λ r, truthy (dict_get_default "success" PNone r) = false) results →
  _synthesize_results py_repr o task plan results w
  = (w, inr "No successful outputs from agents.") ∧
  requests (_synthesize_results py_repr o task plan results w).1 = requests w ∧
  execution_count (_synthesize_results py_repr o task plan results w).1
  = execution_count w.
Proof.
  intros H.
  assert (_synthesize_results py_repr o task plan results w
          = (w, inr "No successful outputs from agents.")) as ->; [| done].
  unfold _synthesize_results, mbind, M_bind, lift.
  by rewrite collect_outputs_none.
Qed.

End Synthesis.

Lemma no_success_no_generation_call_witness :
  _synthesize_results Sample.repr (Sample.planner "An integrated answer")
    "Research the market"
    [ mk_step "research" "gather_information"; mk_step "planner" "think" ]
    [ failed_step (Exn "ConnectionError" "search backend down") "research";
      not_available Sample.repr (PStr "planner") ]
    (Sample.world new_state)
  = (Sample.world new_state, inr "No successful outputs from agents.") ∧
  requests (Sample.world new_state) = [].
Proof.
  split; [| reflexivity].
  apply (no_success_no_generation_call Sample.repr
           (Sample.planner "An integrated answer")).
  repeat constructor.
Defined.

(** ** The run entry point *)

Section Run.

Context {Env : Type}.
Variable json_loads : string → option pyval.
Variable py_repr : pyval → string.
Variable max_iterations : Z.
Variable o : @Orchestrator Env.

Lemma orchestrator_execute_returns task w :
  ∃ w' result,
    Orchestrator_execute json_loads py_repr max_iterations o task w
    = (w', inr result) ∧
    match orchestrate json_loads py_repr max_iterations o task w with
    | (_, inl e) =>
        dict_get "output" result = Some PNone ∧
        dict_get "success" result = Some (PBool false) ∧
        dict_get "error" result = Some (PStr (exn_msg e))
    | (w1, inr r) => w' = w1 ∧ result = r
    end.
Proof.
  unfold Orchestrator_execute, try_except.
  destruct (orchestrate _ _ _ _ task w) as [w1 [e|r]]; eexists _, _;
    (split; [reflexivity |]); done.
Qed.

Lemma orchestrate_success task w w1 r :
  orchestrate json_loads py_repr max_iterations o task w = (w1, inr r) →
  dict_get "success" r = Some (PBool true) ∧ dict_get "error" r = Some PNone.
Proof.
  unfold orchestrate, mbind, M_bind, lift, format_result.
  repeat lazymatch goal with
         | |- context [match ?c with (_, _) => _ end] =>
             destruct c as [? [?|?]]; try discriminate
         | |- context [match ?c with inl _ => _ | inr _ => _ end] =>
             destruct c; try discriminate
         end.
  by intros [= <- <-].
Qed.

(** C7.  Whatever the task, the initial context and the world, the
    run entry point returns a report and raises nothing.  When the
    orchestration raises, the report has [success = False], no output,
    and the message of the exception as [error]; this is what happens
    when the generation call of the planner fails on a task that matches
    no template, and when the generation call of the synthesis fails. *)
Theorem run_always_returns_report task ctx w :
  ∃ w' report,
    MultiAgentSystem_execute json_loads py_repr max_iterations o task ctx w
    = (w', inr report) ∧
    report_task report = task ∧
    (∀ w1 e,
       orchestrate json_loads py_repr max_iterations o task (start_run ctx w).1
       = (w1, inl e) →
       report_output report = PNone ∧
       report_success report = PBool false ∧
       report_error report = PStr (exn_msg e)) ∧
    (∀ w1 r,
       orchestrate json_loads py_repr max_iterations o task (start_run ctx w).1
       = (w1, inr r) →
       report_success report = PBool true ∧
       report_error report = PNone) ∧
    (∀ w1 e,
       matches_no_template task →
       _call_llm (self o) (_build_messages (self o) (planning_prompt o task))
         (start_run ctx w).1 = (w1, inl e) →
       report_success report = PBool false ∧
       report_error report = PStr (exn_msg e)) ∧
    (∀ w1 plan w2 results w3 e,
       _create_plan json_loads o task (start_run ctx w).1 = (w1, inr plan) →
       run_steps py_repr max_iterations o plan [] w1 = (w2, inr results) →
       _synthesize_results py_repr o task plan results w2 = (w3, inl e) →
       report_success report = PBool false ∧
       report_error report = PStr (exn_msg e)).
Proof.
  unfold MultiAgentSystem_execute, try_except.
  unfold mbind at 1, M_bind at 1.
  destruct (start_run ctx w) as [w0 [e0|[]]] eqn:Estart; [discriminate Estart |].
  cbn [fst].
  unfold mbind, M_bind.
  destruct (orchestrator_execute_returns task w0) as (w' & result & -> & Hres).
  unfold get_state, record_report.
  eexists _, _. split; [reflexivity |].
  cbn [report_task report_output report_success report_error].
  split; [reflexivity |].
  assert (∀ w1 e,
            orchestrate json_loads py_repr max_iterations o task w0 = (w1, inl e) →
            dict_get_default "output" PNone result = PNone ∧
            dict_get_default "success" PNone result = PBool false ∧
            dict_get_default "error" PNone result = PStr (exn_msg e)) as Hraise.
  { intros w1 e E. rewrite E in Hres. destruct Hres as (Ho & Hs & He).
    unfold dict_get_default. by rewrite Ho, Hs, He. }
  split; [exact Hraise |]. split; [| split].
  - intros w1 r E. rewrite E in Hres. destruct Hres as [_ ->].
    destruct (orchestrate_success _ _ _ _ E) as [Hs He].
    unfold dict_get_default. by rewrite Hs, He.
  - intros w1 e Hno Hcall.
    refine (let H := Hraise w1 e _ in conj (proj1 (proj2 H)) (proj2 (proj2 H))).
    unfold orchestrate. rewrite create_plan_custom by done.
    unfold _create_custom_plan, mbind, M_bind. by rewrite Hcall.
  - intros w1 plan w2 results w3 e Hplan Hrun Hsyn.
    refine (let H := Hraise w3 e _ in conj (proj1 (proj2 H)) (proj2 (proj2 H))).
    unfold orchestrate, mbind, M_bind. by rewrite Hplan, Hrun, Hsyn.
Qed.

End Run.

Lemma run_always_returns_report_witness :
  ∃ w' report,
    MultiAgentSystem_execute Sample.loads Sample.repr 10
      (Sample.orchestrator (Some (Sample.failing Sample.GenerationError))
         Sample.five_workers)
      "Plan a trip to Paris" None (Sample.world new_state) = (w', inr report) ∧
    report_success report = PBool false ∧
    report_error report = PStr "service unavailable".
Proof.
  destruct (run_always_returns_report Sample.loads Sample.repr 10
              (Sample.orchestrator (Some (Sample.failing Sample.GenerationError))
                 Sample.five_workers)
              "Plan a trip to Paris" None (Sample.world new_state))
    as (w' & report & Hrun & _ & _ & _ & Hplanner & _).
  exists w', report. split; [exact Hrun |].
  eapply (Hplanner _ Sample.GenerationError).
  - apply match_template_none. reflexivity.
  - reflexivity.
Defined.

(** * Further properties *)

(** ** The shared state *)

(** X1.  A result stored for a worker is the one read back for it; a
    second result for the same worker replaces the first in [results],
    while the history keeps both, oldest first; the results of other
    workers are untouched, and a fresh state has no result. *)
Theorem result_store_round_trip a b r r' st :
  get_result a (set_result a r st) = Some r ∧
  get_result a (set_result a r' (set_result a r st)) = Some r' ∧
  history (set_result a r' (set_result a r st))
  = history st ++ [HResult a r; HResult a r'] ∧
  (a ≠ b → get_result b (set_result a r st) = get_result b st) ∧
  get_result a new_state = None.
Proof.
  unfold get_result. cbn [results set_result history new_state].
  split; [apply lookup_insert_eq |]. split; [apply lookup_insert_eq |].
  split; [by rewrite <- app_assoc |].
  split; [intros Hab; by apply lookup_insert_ne | apply lookup_empty].
Qed.

(** X2.  [update_context] merges: a key of the update reads as the
    update gives it, any other key as before; two updates in a row
    amount to one update by their merge in which the later one wins;
    messages, results and history are not touched. *)
Theorem update_context_merges u1 u2 st k :
  context (update_context u1 st) !! k
  = match u1 !! k with Some v => Some v | None => context st !! k end ∧
  update_context u2 (update_context u1 st) = update_context (u2 ∪ u1) st ∧
  messages (update_context u1 st) = messages st ∧
  results (update_context u1 st) = results st ∧
  history (update_context u1 st) = history st.
Proof.
  split; [| split; [| repeat split; reflexivity]].
  - cbn [context update_context]. rewrite lookup_union.
    destruct (u1 !! k), (context st !! k); done.
  - unfold update_context. cbn. by rewrite (assoc_L (∪)).
Qed.

Lemma logged_messages_app h1 h2 :
  logged_messages (h1 ++ h2) = logged_messages h1 ++ logged_messages h2.
Proof. apply omap_app. Qed.

Lemma replay_results_snoc h e :
  replay_results (h ++ [e])
  = match e with
    | HResult a r => <[a := r]> (replay_results h)
    | HMessage _ => replay_results h
    end.
Proof. unfold replay_results. rewrite fold_left_app. by destruct e. Qed.

Lemma audit_consistent_stable : stable_under_executor audit_consistent.
Proof.
  unfold stable_under_executor, audit_consistent.
  split; [| split; [| split]].
  - intros id st H. exact H.
  - intros m st [Hm Hr]. cbn [add_message history messages results].
    rewrite logged_messages_app, replay_results_snoc, Hm. done.
  - intros a r st [Hm Hr]. cbn [set_result history messages results].
    rewrite logged_messages_app, replay_results_snoc, Hm, Hr.
    cbn. by rewrite app_nil_r.
  - intros st H. exact H.
Qed.

(** X3.  The audit history accounts for the state: in a fresh state,
    and after any sequence of [add_message], [set_result] and
    [update_context], the messages are exactly the message entries of
    the history, in order, and [results] is what replaying the result
    entries of the history gives. *)
Theorem history_accounts_for_state :
  audit_consistent new_state ∧
  (∀ m st, audit_consistent st → audit_consistent (add_message m st)) ∧
  (∀ a r st, audit_consistent st → audit_consistent (set_result a r st)) ∧
  (∀ u st, audit_consistent st → audit_consistent (update_context u st)).
Proof.
  destruct audit_consistent_stable as (_ & Hadd & Hset & _).
  split; [done |]. split; [exact Hadd |]. split; [exact Hset |].
  intros u st H. exact H.
Qed.

(** ** What the orchestration does to the shared state *)

Section Invariants.

Context {Env : Type}.
Variable json_loads : string → option pyval.
Variable py_repr : pyval → string.
Variable max_iterations : Z.
Variable o : @Orchestrator Env.
Variable P : AgentState → Prop.

#[local] Existing Instances M_ret M_bind.

Lemma keeps_ret {A} (x : A) : keeps_state P (mret x : @M Env A).
Proof. by intros w H. Qed.

Lemma keeps_raise {A} e : keeps_state P (raise e : @M Env A).
Proof. by intros w H. Qed.

Lemma keeps_lift {A} (r : exn + A) : keeps_state P (lift r : @M Env A).
Proof. by intros w H. Qed.

Lemma keeps_get_state : keeps_state P (get_state : @M Env AgentState).
Proof. by intros w H. Qed.

Lemma keeps_bind {A B} (c : @M Env A) (f : A → @M Env B) :
  keeps_state P c → (∀ x, keeps_state P (f x)) → keeps_state P (c ≫= f).
Proof.
  intros Hc Hf w H. specialize (Hc w H).
  unfold mbind, M_bind. destruct (c w) as [w' [e|x]]; [exact Hc |].
  by apply Hf.
Qed.

Lemma keeps_try_except {A} (c : @M Env A) h :
  keeps_state P c → (∀ e, keeps_state P (h e)) → keeps_state P (try_except c h).
Proof.
  intros Hc Hh w H. specialize (Hc w H).
  unfold try_except. destruct (c w) as [w' [e|x]]; [| exact Hc].
  by apply Hh.
Qed.

Lemma keeps_modify_state f :
  (∀ st, P st → P (f st)) → keeps_state P (modify_state f : @M Env unit).
Proof. intros Hf w H. by apply Hf. Qed.

Lemma keeps_call_llm (a : @BaseAgent Env) msgs : keeps_state P (_call_llm a msgs).
Proof.
  intros w H. unfold _call_llm. destruct (client a) as [create|]; [| done].
  destruct (create _ _ _) as [env' [e|response]]; [done |].
  by destruct (choices response).
Qed.

Lemma keeps_format_result (a : @BaseAgent Env) output success error meta :
  keeps_state P (format_result a output success error meta).
Proof. by intros w H. Qed.

Hypothesis Hstable : stable_under_executor P.
Hypothesis Hworkers : workers_preserve o P.

Lemma keeps_call_worker id agent action :
  assoc id (agents o) = Some agent → keeps_state P (call_worker agent action).
Proof.
  intros Hagent w H. unfold call_worker.
  specialize (Hworkers id agent action (state w) (env w) Hagent H).
  by destruct (execute agent action (state w) (env w)) as [[st' env'] r].
Qed.

Lemma keeps_execute_step step : keeps_state P (_execute_step py_repr o step).
Proof.
  destruct Hstable as (Hcur & Hadd & Hset & _).
  unfold _execute_step.
  destruct (dict_get "agent" step) as [v|]; [| apply keeps_raise].
  destruct v as [| | |id| |]; cbn [find_agent];
    try apply keeps_ret; try apply keeps_raise.
  destruct (assoc id (agents o)) as [agent|] eqn:Hagent; [| apply keeps_ret].
  apply keeps_bind; [apply keeps_modify_state; intros; by apply Hcur |].
  intros _. apply keeps_bind; [apply keeps_modify_state; intros; by apply Hadd |].
  intros _. apply keeps_try_except; [| intros; apply keeps_ret].
  apply keeps_bind; [by apply keeps_call_worker with id |].
  intros result.
  apply keeps_bind; [apply keeps_modify_state; intros; by apply Hset |].
  intros _. apply keeps_bind; [apply keeps_modify_state; intros; by apply Hadd |].
  intros _. apply keeps_ret.
Qed.

Lemma keeps_run_steps plan acc :
  keeps_state P (run_steps py_repr max_iterations o plan acc).
Proof.
  destruct Hstable as (_ & _ & _ & Hincr).
  revert acc. induction plan as [|step plan IH]; intros acc; cbn [run_steps].
  - apply keeps_ret.
  - destruct (dict_get "agent" step); [| apply keeps_raise].
    apply keeps_bind; [apply keeps_execute_step |]. intros result.
    apply keeps_bind; [apply keeps_modify_state; intros; by apply Hincr |].
    intros _. apply keeps_bind; [apply keeps_get_state |]. intros st.
    destruct (max_iterations <=? iteration st); [apply keeps_ret | apply IH].
Qed.

Lemma keeps_create_plan task : keeps_state P (_create_plan json_loads o task).
Proof.
  unfold _create_plan. destruct (_match_template task); [apply keeps_ret |].
  unfold _create_custom_plan.
  apply keeps_bind; [apply keeps_call_llm |]. intros response.
  destruct (json_loads response); [| apply keeps_ret].
  apply keeps_bind; [apply keeps_lift |]. intros steps.
  apply keeps_bind; [apply keeps_lift |]. intros plan.
  destruct plan; apply keeps_ret.
Qed.

Lemma keeps_synthesize_results task plan results :
  keeps_state P (_synthesize_results py_repr o task plan results).
Proof.
  unfold _synthesize_results.
  apply keeps_bind; [apply keeps_lift |]. intros outputs.
  destruct outputs; [apply keeps_ret | apply keeps_call_llm].
Qed.

Lemma keeps_orchestrator_execute task :
  keeps_state P (Orchestrator_execute json_loads py_repr max_iterations o task).
Proof.
  unfold Orchestrator_execute.
  apply keeps_try_except; [| intros; apply keeps_format_result].
  unfold orchestrate.
  apply keeps_bind; [apply keeps_create_plan |]. intros plan.
  apply keeps_bind; [apply keeps_run_steps |]. intros results.
  apply keeps_bind; [apply keeps_synthesize_results |]. intros final_result.
  apply keeps_bind; [apply keeps_lift |]. intros used.
  apply keeps_format_result.
Qed.

(** X4.  The orchestrator changes the shared state only by setting the
    current agent, logging a message, storing a result and adding one
    to the iteration counter, and through the workers it invokes: a
    property of the state that these four mutations and the registered
    workers preserve still holds when [Orchestrator.execute] is over,
    whether the orchestration completed or failed. *)
Theorem orchestration_preserves_stable_properties task w :
  P (state w) →
  P (state (Orchestrator_execute json_loads py_repr max_iterations o task w).1).
Proof. apply keeps_orchestrator_execute. Qed.

End Invariants.

Lemma five_workers_preserve (c : option (@Client unit)) (P : AgentState → Prop) :
  workers_preserve (Sample.orchestrator c Sample.five_workers) P.
Proof.
  intros id agent action st env H HP. cbn in H.
  repeat lazymatch type of H with
         | (if ?b then _ else _) = _ => destruct b; [by injection H as <- |]
         end.
  discriminate.
Qed.

Lemma orchestration_preserves_stable_properties_witness :
  audit_consistent
    (state (Orchestrator_execute Sample.loads Sample.repr 10
              (Sample.planner "An integrated answer")
              "Build a REST API for a todo app" (Sample.world new_state)).1).
Proof.
  apply (orchestration_preserves_stable_properties Sample.loads Sample.repr 10
           (Sample.planner "An integrated answer") audit_consistent).
  - apply audit_consistent_stable.
  - apply five_workers_preserve.
  - split; reflexivity.
Defined.

(** ** The run entry point, continued *)

Section Run_state.

Context {Env : Type}.
Variable json_loads : string → option pyval.
Variable py_repr : pyval → string.
Variable max_iterations : Z.
Variable o : @Orchestrator Env.

(** The state a run starts from: fresh, with the initial context. *)
Lemma start_run_state ctx (w : @World Env) :
  ∃ w0, start_run ctx w = (w0, inr tt) ∧
        messages (state w0) = [] ∧ history (state w0) = [] ∧
        results (state w0) = ∅ ∧ iteration (state w0) = 0 ∧
        context (state w0) = default ∅ ctx ∧
        env w0 = env w ∧ requests w0 = requests w ∧
        execution_count w0 = execution_count w ∧
        total_tokens w0 = total_tokens w ∧
        execution_history w0 = execution_history w.
Proof.
  eexists. split; [reflexivity |].
  destruct ctx as [c|]; cbn; [| done].
  destruct (decide (c = ∅)) as [-> |]; cbn; repeat split; try done.
  by rewrite (right_id_L ∅ (∪)).
Qed.

(** The run entry point unfolded: the orchestration on the state the
    run starts from, then the report, appended to the history. *)
Lemma system_execute_report task ctx (w : @World Env) :
  ∃ w1 result,
    Orchestrator_execute json_loads py_repr max_iterations o task
      (start_run ctx w).1 = (w1, inr result) ∧
    let report :=
      {| report_task := task;
         report_output := dict_get_default "output" PNone result;
         report_success := dict_get_default "success" PNone result;
         report_error := dict_get_default "error" PNone result;
         report_summary := Some (get_execution_summary o (state w1));
         report_state := Some (state w1) |} in
    MultiAgentSystem_execute json_loads py_repr max_iterations o task ctx w
    = ({| state := state w1; env := env w1; requests := requests w1;
          execution_count := execution_count w1;
          total_tokens := total_tokens w1;
          execution_history := execution_history w1 ++ [report] |},
       inr report).
Proof.
  destruct (orchestrator_execute_returns json_loads py_repr max_iterations o task
              (start_run ctx w).1) as (w1 & result & Hexec & _).
  exists w1, result. split; [exact Hexec |].
  unfold MultiAgentSystem_execute, try_except, mbind, M_bind.
  change (start_run ctx w) with ((start_run ctx w).1, @inr exn unit tt).
  cbn [fst]. rewrite Hexec. reflexivity.
Qed.

(** X5.  When every registered worker keeps the audit history
    consistent with the messages and the results, the state a run
    reports is consistent: its messages are the message entries of its
    history, in order, and its results are obtained by replaying the
    result entries of its history. *)
Theorem reported_state_is_accounted_for task ctx (w : @World Env) :
  workers_preserve o audit_consistent →
  ∃ w' report st,
    MultiAgentSystem_execute json_loads py_repr max_iterations o task ctx w
    = (w', inr report) ∧
    report_state report = Some st ∧
    st = state w' ∧
    audit_consistent st.
Proof.
  intros Hworkers.
  destruct (system_execute_report task ctx w) as (w1 & result & Hexec & Hrun).
  cbv zeta in Hrun. rewrite Hrun.
  eexists _, _, _. split; [reflexivity |]. split; [reflexivity |].
  split; [reflexivity |].
  pose proof (keeps_orchestrator_execute json_loads py_repr max_iterations o
                audit_consistent audit_consistent_stable Hworkers task
                (start_run ctx w).1) as Hkeep.
  rewrite Hexec in Hkeep. apply Hkeep.
  destruct (start_run_state ctx w) as (w0 & -> & Hm & Hh & Hr & _).
  cbn [fst]. unfold audit_consistent. by rewrite Hm, Hh, Hr.
Qed.

(** X6.  The orchestration only ever appends to the log: when no
    registered worker removes or rewrites what is logged, the messages
    and the history found before [Orchestrator.execute] are prefixes
    of the messages and the history found after it. *)
Theorem orchestration_only_appends task (w : @World Env) :
  (∀ id agent action st env,
     assoc id (agents o) = Some agent →
     messages st `prefix_of` messages (execute agent action st env).1.1 ∧
     history st `prefix_of` history (execute agent action st env).1.1) →
  messages (state w)
  `prefix_of` messages (state (Orchestrator_execute json_loads py_repr
                                 max_iterations o task w).1) ∧
  history (state w)
  `prefix_of` history (state (Orchestrator_execute json_loads py_repr
                                max_iterations o task w).1).
Proof.
  intros Happend.
  apply (keeps_orchestrator_execute json_loads py_repr max_iterations o
           (λ st, messages (state w) `prefix_of` messages st ∧
                  history (state w) `prefix_of` history st)).
  - split; [| split; [| split]].
    + intros id st H. exact H.
    + intros m st [Hm Hh]. cbn [add_message messages history].
      split; by apply prefix_app_r.
    + intros a r st [Hm Hh]. cbn [set_result messages history].
      split; [done | by apply prefix_app_r].
    + intros st H. exact H.
  - intros id agent action st env Hagent [Hm Hh].
    destruct (Happend id agent action st env Hagent) as [Hm' Hh'].
    split; etrans; done.
  - done.
Qed.

End Run_state.

(** ** Generation calls of the orchestrator *)

Section Service.

Context {Env : Type}.
Variable json_loads : string → option pyval.
Variable py_repr : pyval → string.
Variable max_iterations : Z.
Variable o : @Orchestrator Env.

Lemma calls_between_refl (w : @World Env) : calls_between o w w [].
Proof.
  unfold calls_between. rewrite app_nil_r. cbn. repeat split; [constructor | lia..].
Qed.

Lemma calls_between_trans (w w1 w2 : @World Env) n1 n2 :
  calls_between o w w1 n1 → calls_between o w1 w2 n2 →
  calls_between o w w2 (n1 ++ n2).
Proof.
  intros (Hr1 & Hf1 & Hc1) (Hr2 & Hf2 & Hc2). unfold calls_between.
  rewrite Hr2, Hr1, app_assoc, length_app. split; [done |].
  split; [by apply Forall_app | lia].
Qed.

Lemma calls_between_one prompt (w w' : @World Env) :
  requests w' = requests w ++ [_build_messages (self o) prompt] →
  execution_count w ≤ execution_count w' ≤ execution_count w + 1 →
  calls_between o w w' [_build_messages (self o) prompt].
Proof.
  intros Hr Hc. unfold calls_between. split; [exact Hr |]. split.
  - constructor; [by exists prompt | constructor].
  - change (Z.of_nat (length [_build_messages (self o) prompt])) with 1. lia.
Qed.

Lemma call_llm_calls prompt (w : @World Env) :
  ∃ new, calls_between o w
           (_call_llm (self o) (_build_messages (self o) prompt) w).1 new ∧
         (length new ≤ 1)%nat.
Proof.
  unfold _call_llm. destruct (client (self o)) as [create|].
  - exists [_build_messages (self o) prompt]. split; [| done].
    destruct (create _ _ _) as [env' [e|response]].
    + apply calls_between_one; cbn [fst requests execution_count]; [done | lia].
    + destruct (choices response);
        (apply calls_between_one; cbn [fst requests execution_count]; [done | lia]).
  - exists []. split; [apply calls_between_refl | cbn; lia].
Qed.

(** The step executor and the run loop leave the orchestrator's
    requests, counters and the execution history alone. *)
Lemma execute_step_service step (w : @World Env) :
  let w' := (_execute_step py_repr o step w).1 in
  requests w' = requests w ∧ execution_count w' = execution_count w ∧
  total_tokens w' = total_tokens w ∧
  execution_history w' = execution_history w.
Proof.
  cbv zeta. unfold _execute_step.
  destruct (dict_get "agent" step) as [v|]; [| done].
  destruct v as [| | |id| |]; cbn [find_agent]; try done.
  destruct (assoc id (agents o)) as [agent|]; [| done].
  unfold mbind, M_bind, modify_state, try_except, call_worker, mret, M_ret.
  cbn [with_state state env].
  by destruct (execute agent _ _ (env w)) as [[st' env'] [e|result]].
Qed.

Lemma run_steps_service plan acc (w : @World Env) :
  let w' := (run_steps py_repr max_iterations o plan acc w).1 in
  requests w' = requests w ∧ execution_count w' = execution_count w ∧
  total_tokens w' = total_tokens w ∧
  execution_history w' = execution_history w.
Proof.
  cbv zeta. revert acc w. induction plan as [|step plan IH]; intros acc w.
  - done.
  - cbn [run_steps]. destruct (dict_get "agent" step); [| done].
    unfold mbind, M_bind.
    pose proof (execute_step_service step w) as Hstep. cbv zeta in Hstep.
    destruct (_execute_step py_repr o step w) as [w1 [e|result]]; [exact Hstep |].
    unfold modify_state, get_state.
    cbn [with_state state incr_iteration iteration fst] in *.
    destruct (max_iterations <=? iteration (state w1) + 1); [exact Hstep |].
    destruct (IH (acc ++ [result]) (with_state incr_iteration w1))
      as (Hr & Hc & Ht & Hh).
    cbn [with_state requests execution_count total_tokens execution_history] in *.
    destruct Hstep as (Hr' & Hc' & Ht' & Hh').
    rewrite Hr, Hc, Ht, Hh. done.
Qed.

Lemma calls_between_same (w w' : @World Env) :
  requests w' = requests w → execution_count w' = execution_count w →
  calls_between o w w' [].
Proof.
  intros Hr Hc. unfold calls_between. rewrite Hr, Hc, app_nil_r. cbn.
  repeat split; [constructor | lia..].
Qed.

Lemma create_plan_calls task (w : @World Env) :
  ∃ new, calls_between o w (_create_plan json_loads o task w).1 new ∧
         (length new ≤ 1)%nat ∧
         (is_Some (_match_template task) → new = []).
Proof.
  unfold _create_plan. destruct (_match_template task) as [tpl|].
  - exists []. split; [apply calls_between_refl |]. split; [cbn; lia | done].
  - destruct (call_llm_calls (planning_prompt o task) w) as (new & Hcalls & Hlen).
    exists new. split; [| split; [done | by intros [? ?]]].
    unfold _create_custom_plan, mbind, M_bind, lift, mret, M_ret.
    destruct (_call_llm _ _ w) as [w1 [e|response]]; [exact Hcalls |].
    destruct (json_loads response) as [decoded|]; [| exact Hcalls].
    destruct (py_iter decoded) as [e|steps]; [exact Hcalls |].
    destruct (keep_valid o steps) as [e|[|step plan]]; exact Hcalls.
Qed.

Lemma synthesize_calls task plan results (w : @World Env) :
  ∃ new, calls_between o w
           (_synthesize_results py_repr o task plan results w).1 new ∧
         (length new ≤ 1)%nat.
Proof.
  unfold _synthesize_results, mbind, M_bind, lift, mret, M_ret.
  destruct (collect_outputs py_repr o plan results) as [e|[|out outs]];
    try (exists []; split; [apply calls_between_refl | cbn; lia]).
  apply call_llm_calls.
Qed.

(** X7.  One orchestration submits at most two requests to the
    generation service, at most one when a template matches the task;
    each request is the orchestrator's system prompt followed by a
    single user message, and the orchestrator's count of completions
    grows by at most one per request. *)
Theorem orchestration_generation_calls task (w : @World Env) :
  ∃ new,
    calls_between o w
      (Orchestrator_execute json_loads py_repr max_iterations o task w).1 new ∧
    (length new ≤ 2)%nat ∧
    (is_Some (_match_template task) → (length new ≤ 1)%nat).
Proof.
  destruct (create_plan_calls task w) as (n1 & Hplan & Hlen1 & Htpl).
  assert (∀ w1 w2 : @World Env,
            calls_between o w w1 n1 →
            requests w2 = requests w1 → execution_count w2 = execution_count w1 →
            ∃ new, calls_between o w w2 new ∧ (length new ≤ 2)%nat ∧
                   (is_Some (_match_template task) → (length new ≤ 1)%nat)) as Hstop.
  { intros w1 w2 H1 Hr Hc. exists (n1 ++ []).
    split; [eapply calls_between_trans; [exact H1 | by apply calls_between_same] |].
    rewrite app_nil_r. split; [lia |]. intros H. rewrite (Htpl H). cbn. lia. }
  unfold Orchestrator_execute, try_except, orchestrate, mbind, M_bind.
  destruct (_create_plan json_loads o task w) as [w1 [e|plan]] eqn:E1;
    cbn [fst] in Hplan.
  { by apply (Hstop w1). }
  pose proof (run_steps_service plan [] w1) as Hloop. cbv zeta in Hloop.
  destruct (run_steps py_repr max_iterations o plan [] w1) as [w2 [e|results]];
    cbn [fst] in Hloop; destruct Hloop as (Hr2 & Hc2 & _).
  { by apply (Hstop w1). }
  destruct (synthesize_calls task plan results w2) as (n2 & Hsyn & Hlen2).
  assert (calls_between o w1 w2 []) as H12 by (by apply calls_between_same).
  assert (∀ w3 w4 : @World Env,
            calls_between o w2 w3 n2 →
            requests w4 = requests w3 → execution_count w4 = execution_count w3 →
            ∃ new, calls_between o w w4 new ∧ (length new ≤ 2)%nat ∧
                   (is_Some (_match_template task) → (length new ≤ 1)%nat)) as Hend.
  { intros w3 w4 H3 Hr Hc. exists (n1 ++ [] ++ n2 ++ []).
    split.
    - eapply calls_between_trans; [exact Hplan |].
      eapply calls_between_trans; [exact H12 |].
      eapply calls_between_trans; [exact H3 | by apply calls_between_same].
    - rewrite app_nil_r. cbn [app]. rewrite length_app. split; [lia |].
      intros H. rewrite (Htpl H). cbn. lia. }
  destruct (_synthesize_results py_repr o task plan results w2)
    as [w3 [e|final_result]]; cbn [fst] in Hsyn.
  { by apply (Hend w3). }
  unfold lift. destruct (agents_used py_repr plan) as [e|used];
    by apply (Hend w3).
Qed.

(** X8.  Without a client, a task that matches no template fails
    before any worker is invoked: the run reports failure with the
    error "<name>: OpenAI client not available", the reported state has
    no message, no result and iteration 0, and nothing is submitted to
    the generation service. *)
Theorem no_client_fails_before_any_step task ctx (w : @World Env) :
  client (self o) = None →
  matches_no_template task →
  ∃ w' report st,
    MultiAgentSystem_execute json_loads py_repr max_iterations o task ctx w
    = (w', inr report) ∧
    report_success report = PBool false ∧
    report_error report
    = PStr (name (self o) +:+ ": OpenAI client not available") ∧
    report_output report = PNone ∧
    report_state report = Some st ∧
    messages st = [] ∧ results st = ∅ ∧ iteration st = 0 ∧
    requests w' = requests w.
Proof.
  intros Hclient Hno.
  destruct (system_execute_report json_loads py_repr max_iterations o task ctx w)
    as (w1 & result & Hexec & Hrun).
  cbv zeta in Hrun. rewrite Hrun. clear Hrun.
  destruct (start_run_state ctx w)
    as (w0 & Hstart & Hm & _ & Hres & Hit & _ & _ & Hreq & _).
  rewrite Hstart in Hexec. cbn [fst] in Hexec.
  unfold Orchestrator_execute, try_except, orchestrate in Hexec.
  rewrite create_plan_custom in Hexec by done.
  unfold _create_custom_plan, mbind, M_bind, _call_llm in Hexec.
  rewrite Hclient in Hexec. cbn in Hexec. injection Hexec as <- <-.
  eexists _, _, _. split; [reflexivity |].
  cbn [report_success report_error report_output report_state requests].
  repeat (split; [reflexivity |]). done.
Qed.

End Service.

(** ** From the plan to the synthesis *)

Section Pipeline.

Context {Env : Type}.
Variable json_loads : string → option pyval.
Variable py_repr : pyval → string.
Variable max_iterations : Z.
Variable o : @Orchestrator Env.

Lemma string_agent_has_agent step : string_agent step → has_agent step.
Proof. intros [id Hid]. by exists (PStr id). Qed.

Lemma names_worker_string_agent step : names_worker o step → string_agent step.
Proof. intros (id & Hid & _). by exists id. Qed.

(** Every step of a plan the planner returns has a string as agent,
    whatever the registry holds. *)
Lemma create_plan_string_agents task (w w1 : @World Env) plan :
  _create_plan json_loads o task w = (w1, inr plan) → Forall string_agent plan.
Proof.
  unfold _create_plan.
  assert (∀ p : list pydict,
            p = default_plan ∨ p = fallback_plan → Forall string_agent p) as Hbuiltin
    by (intros p [-> | ->];
        repeat first [apply Forall_nil_2 | apply Forall_cons_2; [by eexists |]]).
  destruct (_match_template task) as [tpl|] eqn:Et.
  - intros [= <- <-]. apply (match_template_catalogue json_loads) in Et.
    simpl in Et.
    destruct Et as [<- | [<- | [<- | []]]]; cbn [tpl_steps];
      repeat first [apply Forall_nil_2
                   | apply Forall_cons_2; [by eexists; reflexivity |]].
  - unfold _create_custom_plan, mbind, M_bind, lift, mret, M_ret.
    destruct (_call_llm _ _ w) as [w' [e|response]]; [done |].
    destruct (json_loads response) as [decoded|].
    + destruct (py_iter decoded) as [e|steps]; [done |].
      destruct (keep_valid o steps) as [e|kept] eqn:Ek; [done |].
      apply keep_valid_sound in Ek.
      destruct kept as [|step kept]; intros [= <- <-].
      * apply Hbuiltin. by right.
      * eapply Forall_impl; [exact Ek |]. apply names_worker_string_agent.
    + intros [= <- <-]. apply Hbuiltin. by left.
Qed.

(** A result that reports a success was returned by a registered
    worker: the results the executor makes up report a failure. *)
Lemma execute_step_success_origin step (w w' : @World Env) result :
  _execute_step py_repr o step w = (w', inr result) →
  success_has_worker o step result.
Proof.
  unfold _execute_step, success_has_worker, mret, M_ret, raise.
  destruct (dict_get "agent" step) as [v|]; [| done].
  destruct v as [| | |id| |]; cbn [find_agent]; try done;
    try (intros [= <- <-] Hs; cbn in Hs; discriminate Hs).
  destruct (assoc id (agents o)) as [agent|] eqn:Hagent;
    [| intros [= <- <-] Hs; cbn in Hs; discriminate Hs].
  intros _ _. by exists id, agent.
Qed.

Lemma execute_step_never_succeeds step (w w' : @World Env) result :
  never_succeeds o →
  _execute_step py_repr o step w = (w', inr result) →
  succeeded result = false.
Proof.
  intros Hnever. unfold _execute_step, mret, M_ret, raise.
  destruct (dict_get "agent" step) as [v|]; [| done].
  destruct v as [| | |id| |]; cbn [find_agent]; try done;
    try (intros [= <- <-]; reflexivity).
  destruct (assoc id (agents o)) as [agent|] eqn:Hagent;
    [| intros [= <- <-]; reflexivity].
  unfold mbind, M_bind, modify_state, try_except, call_worker, mret, M_ret.
  cbn [with_state state env].
  destruct (execute agent _ _ (env w)) as [[st' env'] [e|r]] eqn:E;
    intros [= <- <-]; [reflexivity |].
  by eapply Hnever.
Qed.

(** The loop on a plan whose steps have agents that can be hashed
    returns one result per executed step, each related to its step by
    any relation that holds between a step and the result the executor
    returns for it. *)
Lemma run_steps_related (R : pydict → pydict → Prop) plan :
  (∀ step (w w' : @World Env) result,
     _execute_step py_repr o step w = (w', inr result) → R step result) →
  Forall has_agent plan →
  ∀ acc (w : @World Env),
    ∃ w' results,
      run_steps py_repr max_iterations o plan acc w = (w', inr (acc ++ results)) ∧
      (length results ≤ length plan)%nat ∧
      Forall2 R (take (length results) plan) results.
Proof.
  intros HR Hplan. induction Hplan as [|step plan Hstep _ IH]; intros acc w.
  - exists w, []. cbn. rewrite app_nil_r. split; [done |]. split; [lia | constructor].
  - destruct (run_steps_cons py_repr max_iterations o step plan acc w Hstep)
      as (w1 & result & Hexec & _ & ->).
    apply HR in Hexec.
    destruct (max_iterations <=? iteration (state w1) + 1).
    + exists (with_state incr_iteration w1), [result]. split; [done |].
      cbn. split; [lia |]. rewrite take_0. by repeat constructor.
    + destruct (IH (acc ++ [result]) (with_state incr_iteration w1))
        as (w' & results & -> & Hlen & Hrel).
      exists w', (result :: results). rewrite <- app_assoc.
      split; [done |]. cbn. split; [lia | by constructor].
Qed.

Lemma collect_outputs_returns plan results :
  Forall2 (success_has_worker o) (take (length results) plan) results →
  ∃ outs, collect_outputs py_repr o plan results = inr outs.
Proof.
  revert plan. induction results as [|result results IH]; intros plan H.
  - exists []. by destruct plan.
  - destruct plan as [|step plan]; [by apply Forall2_nil_cons_inv in H |].
    cbn [length take] in H. apply Forall2_cons in H as [Hhead Htail].
    destruct (IH _ Htail) as [outs Houts].
    cbn [collect_outputs]. fold (succeeded result).
    destruct (succeeded result) eqn:Es; [| by exists outs].
    destruct (Hhead Es) as (id & agent & -> & Hagent).
    unfold agent_of. cbn [find_agent]. rewrite Hagent, Houts. by eexists.
Qed.

Lemma collect_outputs_length plan results outs :
  collect_outputs py_repr o plan results = inr outs →
  length outs = length (List.filter succeeded (take (length plan) results)).
Proof.
  revert results outs. induction plan as [|step plan IH]; intros results outs.
  - cbn. by intros [= <-].
  - destruct results as [|result results]; [cbn; by intros [= <-] |].
    cbn [collect_outputs length take List.filter]. fold (succeeded result).
    destruct (succeeded result); [| apply IH].
    destruct (dict_get "agent" step) as [key|]; [| done].
    destruct (agent_of py_repr o key) as [e|agent]; [done |].
    destruct (collect_outputs py_repr o plan results) as [e|outs'] eqn:E; [done |].
    intros [= <-]. cbn. f_equal. by apply IH.
Qed.

Lemma agents_used_returns plan :
  Forall string_agent plan → ∃ used, agents_used py_repr plan = inr used.
Proof.
  intros H. unfold agents_used.
  assert (∃ l, plan_agents py_repr plan = inr l) as [l ->]; [| by eexists].
  induction H as [|step plan [id Hid] _ [l IH]]; [by eexists |].
  cbn [plan_agents]. rewrite Hid, IH. by eexists.
Qed.

(** X9.  Once the planner has returned a plan, the rest of the
    orchestration can fail only in the generation call of the
    synthesis.  Every step of the plan has a string as agent; the run
    loop returns, with at most one result per step; no look-up of the
    synthesis or of the metadata fails; and the orchestration ends as
    the synthesis does, with a result that reports a success and
    carries the synthesized text, or with the exception the generation
    call raised. *)
Theorem planned_run_fails_only_in_synthesis task (w w1 : @World Env) plan :
  _create_plan json_loads o task w = (w1, inr plan) →
  Forall string_agent plan ∧
  ∃ w2 results outs,
    run_steps py_repr max_iterations o plan [] w1 = (w2, inr results) ∧
    (length results ≤ length plan)%nat ∧
    collect_outputs py_repr o plan results = inr outs ∧
    match _synthesize_results py_repr o task plan results w2 with
    | (w3, inr text) =>
        ∃ result,
          orchestrate json_loads py_repr max_iterations o task w
          = (w3, inr result) ∧
          dict_get "output" result = Some (PStr text) ∧
          dict_get "success" result = Some (PBool true) ∧
          dict_get "error" result = Some PNone
    | (w3, inl e) =>
        orchestrate json_loads py_repr max_iterations o task w = (w3, inl e) ∧
        outs ≠ [] ∧
        _call_llm (self o)
          (_build_messages (self o) (synthesis_prompt task (join nl outs))) w2
        = (w3, inl e)
    end.
Proof.
  intros Hplan.
  pose proof (create_plan_string_agents _ _ _ _ Hplan) as Hstr.
  split; [exact Hstr |].
  assert (Forall has_agent plan) as Hhas
    by (eapply Forall_impl; [exact Hstr | apply string_agent_has_agent]).
  destruct (run_steps_related (success_has_worker o) plan
              execute_step_success_origin Hhas [] w1)
    as (w2 & results & Hrun & Hlen & Hrel).
  cbn [app] in Hrun.
  destruct (collect_outputs_returns plan results Hrel) as [outs Houts].
  destruct (agents_used_returns plan Hstr) as [used Hused].
  exists w2, results, outs. split; [exact Hrun |]. split; [exact Hlen |].
  split; [exact Houts |].
  unfold orchestrate, mbind, M_bind. rewrite Hplan, Hrun.
  unfold _synthesize_results, mbind, M_bind, lift. rewrite Houts.
  destruct outs as [|out outs].
  - cbn. rewrite Hused. cbn. eexists. split; [reflexivity |]. done.
  - destruct (_call_llm _ _ w2) as [w3 [e|text]].
    + done.
    + rewrite Hused. cbn. eexists. split; [reflexivity |]. done.
Qed.

(** X10.  The overall success flag does not depend on the steps: when
    a template matches the task and no worker ever returns a
    successful result, the run still reports [success = True], with
    the output "No successful outputs from agents." and no error, and
    nothing is submitted to the generation service. *)
Theorem run_succeeds_when_every_step_fails task ctx (w : @World Env) :
  is_Some (_match_template task) →
  never_succeeds o →
  ∃ w' report,
    MultiAgentSystem_execute json_loads py_repr max_iterations o task ctx w
    = (w', inr report) ∧
    report_success report = PBool true ∧
    report_output report = PStr "No successful outputs from agents." ∧
    report_error report = PNone ∧
    requests w' = requests w.
Proof.
  intros [tpl Htpl] Hnever.
  destruct (system_execute_report json_loads py_repr max_iterations o task ctx w)
    as (w1 & result & Hexec & Hrun).
  cbv zeta in Hrun. rewrite Hrun. clear Hrun.
  destruct (start_run_state ctx w) as (w0 & Hstart & _ & _ & _ & _ & _ & _ & Hreq & _).
  rewrite Hstart in Hexec. cbn [fst] in Hexec.
  assert (_create_plan json_loads o task w0 = (w0, inr (tpl_steps tpl))) as Hplan
    by (unfold _create_plan; by rewrite Htpl).
  assert (Forall has_agent (tpl_steps tpl)) as Hhas.
  { eapply Forall_impl; [exact (create_plan_string_agents _ _ _ _ Hplan) |].
    apply string_agent_has_agent. }
  destruct (run_steps_related (λ _ r, succeeded r = false) (tpl_steps tpl)
              (λ step w w' r, execute_step_never_succeeds step w w' r Hnever)
              Hhas [] w0)
    as (w2 & results & Hloop & _ & Hrel).
  cbn [app] in Hloop.
  assert (Forall (λ r, truthy (dict_get_default "success" PNone r) = false) results)
    as Hfail.
  { clear -Hrel. induction Hrel; constructor; done. }
  pose proof (run_steps_service py_repr max_iterations o (tpl_steps tpl) [] w0) as Hsvc.
  rewrite Hloop in Hsvc. cbv zeta in Hsvc. cbn [fst] in Hsvc.
  destruct Hsvc as (Hr2 & _).
  destruct (agents_used_returns (tpl_steps tpl)
              (create_plan_string_agents _ _ _ _ Hplan)) as [used Hused].
  unfold Orchestrator_execute, try_except, orchestrate, mbind, M_bind in Hexec.
  rewrite Hplan, Hloop in Hexec.
  unfold _synthesize_results, mbind, M_bind, lift in Hexec.
  rewrite (collect_outputs_none py_repr o _ _ Hfail) in Hexec.
  cbn in Hexec. rewrite Hused in Hexec. cbn in Hexec.
  injection Hexec as <- <-.
  eexists _, _. split; [reflexivity |].
  cbn [report_success report_output report_error requests].
  repeat (split; [reflexivity |]). by rewrite Hr2.
Qed.

(** X11.  The synthesis prompt carries one block per successful
    result among the results paired with a step, and none for a failed
    one; when there is at least one and the orchestrator has a client,
    exactly one request is submitted, the system prompt followed by
    the synthesis prompt over these blocks. *)
Theorem synthesis_reports_successes task plan results outs (w : @World Env) :
  collect_outputs py_repr o plan results = inr outs →
  length outs = length (List.filter succeeded (take (length plan) results)) ∧
  (outs ≠ [] → is_Some (client (self o)) →
   requests (_synthesize_results py_repr o task plan results w).1
   = requests w
     ++ [_build_messages (self o) (synthesis_prompt task (join nl outs))]).
Proof.
  intros Houts. split; [by apply collect_outputs_length |].
  intros Hne [create Hclient].
  unfold _synthesize_results, mbind, M_bind, lift. rewrite Houts.
  destruct outs as [|out outs]; [done |].
  rewrite call_llm_requests, Hclient. done.
Qed.

End Pipeline.

(** ** Decodable responses of an unexpected shape *)

Section Planner_shapes.

Context {Env : Type}.
Variable json_loads : string → option pyval.
Variable o : @Orchestrator Env.

Lemma keep_valid_app ds rest :
  Forall hashable_agent ds →
  keep_valid o (map PDict ds ++ rest)
  = match keep_valid o rest with
    | inl e => inl e
    | inr kept => inr (registered_steps o ds ++ kept)
    end.
Proof.
  induction 1 as [|d ds Hd _ IH]; cbn [map app].
  - unfold registered_steps. cbn. by destruct (keep_valid o rest).
  - cbn [keep_valid]. rewrite IH.
    unfold hashable_agent, dict_get_default in Hd.
    unfold registered_steps. cbn [List.filter].
    unfold names_worker_b, dict_get_default.
    destruct (dict_get "agent" d) as [[| | |id| |]|]; simpl in *; try done;
      try by destruct (keep_valid o rest).
    destruct (assoc id (agents o)); by destruct (keep_valid o rest).
Qed.

(** X12.  A response that decodes, but not to an array of objects, is
    not recovered by the planner.  [null], a boolean or a number makes
    it raise a [TypeError]; a non-empty string or object, or an array
    with an element that is not an object, an [AttributeError]; an
    object whose agent is an array or an object, a [TypeError].  Only
    the empty string, the empty object and the empty array give the
    two-step fallback plan. *)
Theorem unexpected_shape_is_not_recovered task (w w1 : @World Env) response decoded :
  matches_no_template task →
  _call_llm (self o) (_build_messages (self o) (planning_prompt o task)) w
  = (w1, inr response) →
  json_loads response = Some decoded →
  let raises cls :=
    ∃ e, _create_plan json_loads o task w = (w1, inl e) ∧ exn_class e = cls in
  (decoded = PNone ∨ (∃ b, decoded = PBool b) ∨ (∃ z, decoded = PInt z) →
   raises "TypeError") ∧
  ((∃ c s, decoded = PStr (String c s)) ∨ (∃ kv d, decoded = PDict (kv :: d)) →
   raises "AttributeError") ∧
  (∀ ds v rest,
     decoded = PList (map PDict ds ++ v :: rest) →
     Forall hashable_agent ds →
     (∀ d, v ≠ PDict d) →
     raises "AttributeError") ∧
  (∀ ds d rest,
     decoded = PList (map PDict ds ++ PDict d :: rest) →
     Forall hashable_agent ds →
     hashable (dict_get_default "agent" PNone d) = false →
     raises "TypeError") ∧
  (decoded = PStr EmptyString ∨ decoded = PDict [] ∨ decoded = PList [] →
   _create_plan json_loads o task w = (w1, inr fallback_plan)).
Proof.
  intros Hno Hcall Hjson raises. subst raises. cbv beta.
  rewrite create_plan_custom by done.
  unfold _create_custom_plan, mbind, M_bind, lift, mret, M_ret.
  rewrite Hcall, Hjson.
  split; [| split; [| split; [| split]]].
  - intros [-> | [[b ->] | [z ->]]]; cbn; by eexists.
  - intros [(c & s & ->) | ([k v] & d & ->)]; cbn; by eexists.
  - intros ds v rest -> Hds Hv. cbn [py_iter].
    rewrite keep_valid_app by done. cbn [keep_valid].
    destruct v as [| | | | |d]; try (by eexists). by destruct (Hv d).
  - intros ds d rest -> Hds Hd. cbn [py_iter].
    rewrite keep_valid_app by done. cbn [keep_valid].
    destruct (dict_get_default "agent" PNone d) as [| | | |l|d']; try done;
      cbn; by eexists.
  - intros [-> | [-> | ->]]; reflexivity.
Qed.

End Planner_shapes.

Lemma unexpected_shape_is_not_recovered_witness :
  ∃ w1,
    _create_plan Sample.loads (Sample.planner "[]") "Plan a trip to Paris"
      (Sample.world new_state) = (w1, inr fallback_plan).
Proof.
  eexists.
  refine (proj2 (proj2 (proj2 (proj2
    (unexpected_shape_is_not_recovered Sample.loads (Sample.planner "[]")
       "Plan a trip to Paris" (Sample.world new_state) _ "[]" (PList [])
       _ _ _)))) _).
  - apply match_template_none. reflexivity.
  - reflexivity.
  - reflexivity.
  - right. right. reflexivity.
Defined.

(** ** The run history *)

Section History.

Context {Env : Type}.
Variable json_loads : string → option pyval.
Variable py_repr : pyval → string.
Variable max_iterations : Z.
Variable o : @Orchestrator Env.

(** X13.  [get_history(limit)] returns a suffix of the execution
    history: its last [limit] reports when [limit] is positive (all of
    them when there are fewer), the whole history when [limit] is 0,
    and the history without its first [-limit] reports when [limit]
    is negative.  After [clear_history] it is empty. *)
Theorem get_history_slices limit (w : @World Env) :
  get_history limit w `suffix_of` execution_history w ∧
  (0 < limit →
   get_history limit w
   = drop (length (execution_history w) - Z.to_nat limit) (execution_history w) ∧
   length (get_history limit w)
   = Nat.min (Z.to_nat limit) (length (execution_history w))) ∧
  (limit = 0 → get_history limit w = execution_history w) ∧
  (limit < 0 →
   get_history limit w = drop (Z.to_nat (- limit)) (execution_history w)) ∧
  get_history limit (clear_history w) = [].
Proof.
  unfold get_history, slice_from.
  split; [apply suffix_drop |]. split; [| split; [| split]].
  - intros H. destruct (Z.ltb_spec (- limit) 0); [| lia].
    split; [f_equal; lia | rewrite length_drop; lia].
  - intros ->. destruct (Z.ltb_spec (- 0) 0); [lia |].
    rewrite Z.min_l by lia. apply drop_0.
  - intros H. destruct (Z.ltb_spec (- limit) 0); [lia |].
    destruct (Z.min_spec (- limit) (Z.of_nat (length (execution_history w))))
      as [[_ ->] | [Hle ->]]; [done |].
    rewrite Nat2Z.id, drop_all. symmetry. apply drop_ge. lia.
  - cbn. by destruct (Z.to_nat _).
Qed.

(** X14.  Every run is recorded once and starts afresh: the entry
    point returns a report that it has appended as the last entry of
    the execution history, so that [get_history(1)] returns just that
    report; and neither the report nor the world it leaves depends on
    the shared state left by an earlier run. *)
Theorem run_is_recorded_and_isolated task ctx (w : @World Env) :
  (∃ w' report,
     MultiAgentSystem_execute json_loads py_repr max_iterations o task ctx w
     = (w', inr report) ∧
     execution_history w' = execution_history w ++ [report] ∧
     get_history 1 w' = [report]) ∧
  (∀ st,
     MultiAgentSystem_execute json_loads py_repr max_iterations o task ctx
       (with_state (λ _, st) w)
     = MultiAgentSystem_execute json_loads py_repr max_iterations o task ctx w).
Proof.
  split.
  - destruct (system_execute_report json_loads py_repr max_iterations o task ctx w)
      as (w1 & result & Hexec & Hrun).
    cbv zeta in Hrun. rewrite Hrun. clear Hrun.
    pose proof (orchestrator_execute_returns json_loads py_repr max_iterations o
                  task (start_run ctx w).1) as (w1' & r' & Hexec' & Hcase).
    rewrite Hexec in Hexec'. injection Hexec' as <- <-.
    assert (execution_history w1 = execution_history w) as Hh.
    { clear Hcase.
      unfold Orchestrator_execute, try_except, orchestrate, mbind, M_bind in Hexec.
      pose proof (start_run_state ctx w) as (w0 & Hstart & H0).
      rewrite Hstart in Hexec. cbn [fst] in Hexec.
      assert (execution_history w0 = execution_history w) as <- by apply H0.
      clear Hstart H0.
      assert (∀ (a : @BaseAgent Env) msgs (u : @World Env),
                execution_history (_call_llm a msgs u).1 = execution_history u)
        as Hllm.
      { intros a msgs u. unfold _call_llm. destruct (client a) as [c|]; [| done].
        destruct (c _ _ _) as [? [?|resp]]; [done |]. by destruct (choices resp). }
      assert (execution_history (_create_plan json_loads o task w0).1
              = execution_history w0) as Hp.
      { unfold _create_plan. destruct (_match_template task); [done |].
        unfold _create_custom_plan, mbind, M_bind, lift, mret, M_ret.
        specialize (Hllm (self o)
                      (_build_messages (self o) (planning_prompt o task)) w0).
        destruct (_call_llm _ _ w0) as [u [?|resp]]; [done |].
        destruct (json_loads resp) as [dec|]; [| done].
        destruct (py_iter dec) as [?|steps]; [done |].
        by destruct (keep_valid o steps) as [?|[|? ?]]. }
      destruct (_create_plan json_loads o task w0) as [u1 [e|plan]];
        cbn [fst] in Hp; [by injection Hexec as <- _ |].
      pose proof (run_steps_service py_repr max_iterations o plan [] u1) as Hl.
      cbv zeta in Hl. destruct Hl as (_ & _ & _ & Hl).
      destruct (run_steps py_repr max_iterations o plan [] u1) as [u2 [e|results]];
        cbn [fst] in Hl; [injection Hexec as <- _; cbn; congruence |].
      assert (execution_history
                (_synthesize_results py_repr o task plan results u2).1
              = execution_history u2) as Hs.
      { unfold _synthesize_results, mbind, M_bind, lift, mret, M_ret.
        destruct (collect_outputs py_repr o plan results) as [?|[|? ?]];
          [done | done | apply Hllm]. }
      destruct (_synthesize_results py_repr o task plan results u2)
        as [u3 [e|text]]; cbn [fst] in Hs;
        [injection Hexec as <- _; cbn; congruence |].
      unfold lift in Hexec.
      destruct (agents_used py_repr plan); injection Hexec as <- _; cbn; congruence. }
    eexists _, _. split; [reflexivity |].
    cbn [execution_history]. rewrite Hh. split; [reflexivity |].
    unfold get_history, slice_from. cbn [execution_history].
    change (Z.opp 1 <? 0) with true. cbv iota.
    rewrite length_app. cbn [length].
    replace (Z.to_nat _) with (length (execution_history w)) by lia.
    apply drop_app_length.
  - intros st. reflexivity.
Qed.

End History.

(** ** The execution summary *)

Lemma count_sender_get s k d :
  dict_get k (count_sender s d)
  = if String.eqb k s
    then Some match dict_get s d with
              | Some (PInt n) => PInt (n + 1)
              | Some v => v
              | None => PInt 1
              end
    else dict_get k d.
Proof.
  induction d as [|[k' v] d IH]; cbn [count_sender dict_get].
  - by destruct (String.eqb k s).
  - destruct (String.eqb_spec s k') as [<- | Hsk]; cbn [dict_get].
    + destruct (String.eqb_spec k s) as [-> | Hks]; [| done].
      reflexivity.
    + rewrite IH. destruct (String.eqb_spec k k') as [-> | Hkk]; [| done].
      destruct (String.eqb_spec k' s) as [-> | _]; [done | done].
Qed.

Lemma count_sender_keys s d :
  NoDup (map fst d) → NoDup (map fst (count_sender s d)) ∧
  (∀ k, In k (map fst (count_sender s d)) ↔ k = s ∨ In k (map fst d)).
Proof.
  induction d as [|[k' v] d IH]; cbn [count_sender map fst].
  - intros _. split; [repeat constructor; by intros ?%elem_of_nil |].
    intros k. cbn. intuition congruence.
  - intros [Hk' Hd]%NoDup_cons.
    destruct (String.eqb_spec s k') as [<- | Hsk]; cbn [map fst].
    + split; [by apply NoDup_cons |]. intros k. cbn. intuition congruence.
    + destruct (IH Hd) as [Hnd Hin]. split.
      * apply NoDup_cons. split; [| done].
        rewrite list_elem_of_In, Hin, <- list_elem_of_In.
        intros [-> | H]; [by apply Hsk | by apply Hk'].
      * intros k. cbn. rewrite Hin. intuition congruence.
Qed.

Section Summary.

Context {Env : Type}.
Variable o : @Orchestrator Env.

(** The tally kept for [s] in a dict of counts. *)
Local Abbreviation tally s d :=
  (match dict_get s d with Some (PInt n) => n | _ => 0 end).

Lemma count_senders_fold msgs d :
  (∀ k, dict_get k d = None ∨ ∃ n, 0 < n ∧ dict_get k d = Some (PInt n)) →
  dict_get (agent_id (self o)) d = None →
  NoDup (map fst d) →
  let d' := fold_left
              (λ used msg,
                 if String.eqb (sender msg) (agent_id (self o)) then used
                 else count_sender (sender msg) used) msgs d in
  (∀ k, dict_get k d' = None ∨ ∃ n, 0 < n ∧ dict_get k d' = Some (PInt n)) ∧
  dict_get (agent_id (self o)) d' = None ∧
  NoDup (map fst d') ∧
  (∀ k, k ≠ agent_id (self o) →
        tally k d' = tally k d + Z.of_nat (sent_by k msgs)).
Proof.
  cbv zeta. revert d. induction msgs as [|m msgs IH]; intros d Hcounts Hself Hnd.
  - cbn. split; [done |]. split; [done |]. split; [done |]. intros; lia.
  - cbn [fold_left].
    destruct (String.eqb_spec (sender m) (agent_id (self o))) as [Hm | Hm].
    + destruct (IH d Hcounts Hself Hnd) as (H1 & H2 & H3 & H4).
      split; [done |]. split; [done |]. split; [done |].
      intros k Hk. rewrite (H4 k Hk). unfold sent_by. cbn [List.filter].
      destruct (String.eqb_spec (sender m) k) as [<- | _]; [done | done].
    + destruct (IH (count_sender (sender m) d)) as (H1 & H2 & H3 & H4).
      * intros k. rewrite count_sender_get.
        destruct (String.eqb k (sender m)); [| apply Hcounts].
        right. destruct (Hcounts (sender m)) as [-> | (n & Hn & ->)].
        -- exists 1. split; [lia | done].
        -- exists (n + 1). split; [lia | done].
      * rewrite count_sender_get.
        destruct (String.eqb_spec (agent_id (self o)) (sender m)); [done | done].
      * by apply count_sender_keys.
      * split; [done |]. split; [done |]. split; [done |].
        intros k Hk. rewrite (H4 k Hk), count_sender_get.
        unfold sent_by. cbn [List.filter].
        destruct (String.eqb_spec k (sender m)) as [-> | Hkm].
        -- rewrite String.eqb_refl. cbn [length].
           destruct (Hcounts (sender m)) as [-> | (n & Hn & ->)]; lia.
        -- destruct (String.eqb_spec (sender m) k) as [<- | _]; [done | lia].
Qed.

(** X15.  The execution summary counts the messages faithfully:
    [agents_used] holds, for every sender other than the orchestrator
    that sent at least one message, the number of messages it sent,
    and no entry for any other sender; no sender is listed twice;
    [messages_exchanged] is the number of messages, [total_iterations]
    the iteration counter and [results_generated] the number of
    workers with a stored result. *)
Theorem summary_counts_messages_by_sender (st : AgentState) :
  ∃ used,
    get_execution_summary o st
    = [ ("total_iterations", PInt (iteration st));
        ("agents_used", PDict used);
        ("messages_exchanged", PInt (Z.of_nat (length (messages st))));
        ("results_generated", PInt (Z.of_nat (size (results st)))) ] ∧
    NoDup (map fst used) ∧
    dict_get (agent_id (self o)) used = None ∧
    (∀ s, s ≠ agent_id (self o) →
          dict_get s used
          = match sent_by s (messages st) with
            | O => None
            | S n => Some (PInt (Z.of_nat (S n)))
            end).
Proof.
  exists (count_senders o (messages st)). split; [reflexivity |].
  destruct (count_senders_fold (messages st) []) as (Hcounts & Hself & Hnd & Htally).
  - intros k. by left.
  - done.
  - constructor.
  - split; [exact Hnd |]. split; [exact Hself |].
    intros s Hs. specialize (Htally s Hs). cbn [dict_get] in Htally.
    unfold count_senders.
    destruct (Hcounts s) as [Hnone | (n & Hn & Hsome)].
    + rewrite Hnone in Htally |- *.
      destruct (sent_by s (messages st)); [done | lia].
    + rewrite Hsome in Htally |- *.
      destruct (sent_by s (messages st)) as [|c]; [lia |].
      do 2 f_equal. lia.
Qed.

End Summary.

(** ** The tool registry of [ToolUsingAgent] *)

Lemma assoc_dict_set {A : Type} k k' (v : A) d :
  assoc k' (dict_set k v d) = if String.eqb k' k then Some v else assoc k' d.
Proof.
  induction d as [|[k0 v0] d IH]; cbn [dict_set assoc].
  - by destruct (String.eqb k' k).
  - destruct (String.eqb_spec k k0) as [<- | Hk]; cbn [assoc].
    + by destruct (String.eqb k' k).
    + rewrite IH. destruct (String.eqb_spec k' k0) as [-> | _]; [| done].
      by destruct (String.eqb_spec k0 k) as [-> | _].
Qed.

Lemma dict_set_keys {A : Type} k (v : A) d :
  map fst (dict_set k v d)
  = if existsb (String.eqb k) (map fst d) then map fst d else map fst d ++ [k].
Proof.
  induction d as [|[k0 v0] d IH]; cbn [dict_set map fst existsb]; [done |].
  destruct (String.eqb_spec k k0) as [<- | Hk]; cbn [map fst orb]; [done |].
  rewrite IH. by destruct (existsb (String.eqb k) (map fst d)).
Qed.

Section Tools.

Context {Env : Type}.

(** X16.  A tool is found under the name it was registered with:
    [use_tool] calls the function registered last under that name, with
    the keyword arguments it was given, and returns or raises what it
    does; registering a tool does not change what any other name
    refers to; and a name that was never registered raises
    [ValueError] "Tool '<name>' not registered" without touching the
    world. *)
Theorem registered_tool_is_used n m (f g : @Tool Env) reg kwargs env :
  use_tool (register_tool n f reg) n kwargs env = f kwargs env ∧
  use_tool (register_tool n g (register_tool n f reg)) n kwargs env
  = g kwargs env ∧
  (m ≠ n →
   use_tool (register_tool n f reg) m kwargs env = use_tool reg m kwargs env) ∧
  (¬ In m (get_available_tools reg) →
   use_tool reg m kwargs env
   = (env, inl (Exn "ValueError" ("Tool '" +:+ m +:+ "' not registered")))).
Proof.
  unfold use_tool, register_tool, get_available_tools.
  rewrite !assoc_dict_set, String.eqb_refl.
  split; [done |]. split; [done |]. split.
  - intros Hmn. by destruct (String.eqb_spec m n).
  - intros Hm. assert (assoc m reg = None) as ->; [| done].
    induction reg as [|[k v] reg IH]; [done |]. cbn [assoc].
    destruct (String.eqb_spec m k) as [-> | _].
    + exfalso. apply Hm. by left.
    + apply IH. intros H. apply Hm. by right.
Qed.

(** X17.  However tools are registered, [get_available_tools] lists
    each registered name exactly once, in the order of first
    registration: registering a new name appends it, registering a
    name again changes nothing in the list. *)
Theorem available_tools_are_distinct (registrations : list (string * @Tool Env))
    n (f : @Tool Env) :
  let reg := registry_of registrations in
  NoDup (get_available_tools reg) ∧
  (∀ m, m ∈ get_available_tools reg ↔ m ∈ map fst registrations) ∧
  get_available_tools (register_tool n f reg)
  = (if bool_decide (n ∈ get_available_tools reg)
     then get_available_tools reg
     else get_available_tools reg ++ [n]).
Proof.
  cbv zeta. unfold registry_of, get_available_tools, register_tool.
  assert (∀ (d : list (string * @Tool Env)) k v,
            map fst (dict_set k v d)
            = if bool_decide (k ∈ map fst d) then map fst d
              else map fst d ++ [k]) as Hkeys.
  { intros d k v. rewrite dict_set_keys.
    destruct (existsb (String.eqb k) (map fst d)) eqn:E.
    - apply existsb_exists in E as (x & Hx & ->%String.eqb_eq).
      rewrite bool_decide_eq_true_2; [done | by apply list_elem_of_In].
    - rewrite bool_decide_eq_false_2; [done |]. intros Hin%list_elem_of_In.
      assert (existsb (String.eqb k) (map fst d) = true) as E'
        by (apply existsb_exists; exists k; split; [done | apply String.eqb_refl]).
      congruence. }
  split; [| split; [| apply Hkeys]].
  - assert (∀ d : list (string * @Tool Env),
              NoDup (map fst d) →
              NoDup (map fst (fold_left (λ reg nf, dict_set nf.1 nf.2 reg)
                                registrations d))) as H;
      [| apply H; constructor].
    induction registrations as [|[k v] regs IH]; intros d Hd; [done |].
    cbn [fold_left]. apply IH. rewrite Hkeys. cbn [fst].
    case_bool_decide as Hin; [done |].
    apply NoDup_app. split; [done |]. split; [| apply NoDup_singleton].
    by intros x Hx ->%list_elem_of_singleton.
  - assert (∀ (d : list (string * @Tool Env)) m,
              m ∈ map fst (fold_left (λ reg nf, dict_set nf.1 nf.2 reg)
                             registrations d)
              ↔ m ∈ map fst d ∨ m ∈ map fst registrations) as H.
    { induction registrations as [|[k v] regs IH]; intros d m.
      - cbn. rewrite elem_of_nil. tauto.
      - cbn [fold_left map fst]. rewrite IH, Hkeys. cbn [fst].
        rewrite elem_of_cons.
        case_bool_decide as Hin; [| rewrite elem_of_app, list_elem_of_singleton];
          intuition congruence. }
    intros m. rewrite H. cbn. rewrite elem_of_nil. tauto.
Qed.

End Tools.

(** ** Building requests *)


Section Requests.

Context {Env : Type}.
Variable json_loads : string → option pyval.
Variable py_repr : pyval → string.



(** X19.  [decide_next_action] submits one request, which ends with
    the decision prompt, and recovers from an undecodable response
    only: it then returns the decision to complete.  A response that
    decodes to an object is returned as the decision, as it is; one
    that decodes to anything else raises an [AttributeError]. *)
Theorem decision_recovers_undecodable_only (a : @BaseAgent Env) task tools context
    (w w1 : @World Env) response :
  _call_llm a
    (_build_messages_with_context py_repr a (decision_prompt task tools) context) w
  = (w1, inr response) →
  last (_build_messages_with_context py_repr a (decision_prompt task tools) context)
  = Some {| role := "user"; chat_content := decision_prompt task tools |} ∧
  requests w1
  = requests w
    ++ [_build_messages_with_context py_repr a (decision_prompt task tools) context] ∧
  match json_loads response with
  | None =>
      decide_next_action json_loads py_repr a task tools context w
      = (w1, inr [ ("action", PStr "complete"); ("parameters", PDict []);
                   ("reasoning", PStr "Error parsing decision") ])
  | Some (PDict decision) =>
      decide_next_action json_loads py_repr a task tools context w
      = (w1, inr decision)
  | Some _ =>
      ∃ e, decide_next_action json_loads py_repr a task tools context w
           = (w1, inl e) ∧
           exn_class e = "AttributeError"
  end.
Proof.
  intros Hcall. split.
  { unfold _build_messages_with_context. rewrite app_assoc. apply last_snoc. }
  split.
  { pose proof (call_llm_requests a
                  (_build_messages_with_context py_repr a
                     (decision_prompt task tools) context) w) as H.
    rewrite Hcall in H. cbn [fst] in H. rewrite H.
    destruct (client a) eqn:E; [done |].
    unfold _call_llm in Hcall. by rewrite E in Hcall. }
  unfold decide_next_action, mbind, M_bind. rewrite Hcall.
  destruct (json_loads response) as [[| | | | |d]|]; try done; by eexists.
Qed.

End Requests.

Lemma decision_recovers_undecodable_only_witness :
  ∃ w1,
    decide_next_action Sample.loads Sample.repr
      (self (Sample.planner "Sure, here is the plan"))
      "Find sources" ["web_search"; "wikipedia"] None (Sample.world new_state)
    = (w1, inr [ ("action", PStr "complete"); ("parameters", PDict []);
                 ("reasoning", PStr "Error parsing decision") ]).
Proof.
  eexists.
  exact (proj2 (proj2
    (decision_recovers_undecodable_only Sample.loads Sample.repr
       (self (Sample.planner "Sure, here is the plan"))
       "Find sources" ["web_search"; "wikipedia"] None (Sample.world new_state)
       _ "Sure, here is the plan" eq_refl))).
Defined.

(** ** Result metadata and unregistered workers *)


Section Metadata.

Context {Env : Type}.
Variable json_loads : string → option pyval.
Variable py_repr : pyval → string.
Variable max_iterations : Z.
Variable o : @Orchestrator Env.



(** X21.  A step that names an unregistered worker fails on the spot:
    the executor returns a result with [success = False] whose error
    is "Agent '<id>' not available", invokes no one and changes
    nothing; the loop still counts the step towards the iteration
    ceiling and goes on with the rest of the plan unless it is
    reached. *)
Theorem unregistered_worker_costs_an_iteration step rest acc id (w : @World Env) :
  dict_get "agent" step = Some (PStr id) →
  assoc id (agents o) = None →
  let failed :=
    [ ("success", PBool false);
      ("error", PStr ("Agent '" +:+ id +:+ "' not available")) ] in
  _execute_step py_repr o step w = (w, inr failed) ∧
  (run_steps py_repr max_iterations o (step :: rest) acc w
   = if max_iterations <=? iteration (state w) + 1
     then (with_state incr_iteration w, inr (acc ++ [failed]))
     else run_steps py_repr max_iterations o rest (acc ++ [failed])
            (with_state incr_iteration w)).
Proof.
  intros Hid Hnone failed.
  assert (_execute_step py_repr o step w = (w, inr failed)) as Hstep.
  { rewrite (execute_step_unregistered py_repr o step (PStr id) w Hid);
      [reflexivity |]. cbn. by rewrite Hnone. }
  split; [exact Hstep |].
  cbn [run_steps]. rewrite Hid. unfold mbind, M_bind. rewrite Hstep.
  unfold modify_state, get_state.
  cbn [with_state state incr_iteration iteration].
  by destruct (max_iterations <=? iteration (state w) + 1).
Qed.

End Metadata.

(** ** Bounds on what a run reports *)

Section Bounds.

Context {Env : Type}.
Variable json_loads : string → option pyval.
Variable py_repr : pyval → string.
Variable max_iterations : Z.
Variable o : @Orchestrator Env.

Lemma execute_step_messages step (w w1 : @World Env) result :
  workers_log_nothing o →
  _execute_step py_repr o step w = (w1, inr result) →
  (length (messages (state w1)) ≤ length (messages (state w)) + 2)%nat.
Proof.
  intros Hlog. unfold _execute_step, mret, M_ret, raise.
  destruct (dict_get "agent" step) as [v|]; [| done].
  destruct v as [| | |id| |]; cbn [find_agent]; try done;
    try (intros [= <- _]; lia).
  destruct (assoc id (agents o)) as [agent|] eqn:Hagent;
    [| intros [= <- _]; lia].
  unfold mbind, M_bind, modify_state, try_except, call_worker.
  cbn [with_state state env].
  specialize (Hlog id agent
                (dict_get_default "action" (PStr "execute task") step)
                (add_message
                   (task_message o id
                      (dict_get_default "action" (PStr "execute task") step))
                   (set_current_agent id (state w)))
                (env w) Hagent).
  destruct (execute agent _ _ (env w)) as [[st' env'] [e|r]];
    cbn [fst] in Hlog; intros [= <- _];
    cbn [state after_worker with_state add_message set_result
         set_current_agent messages] in *;
    rewrite ?length_app, Hlog, ?length_app; cbn [length]; lia.
Qed.

Lemma run_steps_messages plan :
  keeps_iteration o →
  workers_log_nothing o →
  Forall has_agent plan →
  ∀ acc (w : @World Env),
    ∃ w' results,
      run_steps py_repr max_iterations o plan acc w = (w', inr (acc ++ results)) ∧
      iteration (state w') = iteration (state w) + Z.of_nat (length results) ∧
      length results
      = Nat.min (length plan)
          (Z.to_nat (Z.max 1 (max_iterations - iteration (state w)))) ∧
      (length (messages (state w'))
       ≤ length (messages (state w)) + 2 * length results)%nat.
Proof.
  intros Hkeep Hlog Hplan. induction Hplan as [|step plan Hstep _ IH]; intros acc w.
  - exists w, []. cbn. rewrite app_nil_r. repeat split; lia.
  - destruct (run_steps_cons py_repr max_iterations o step plan acc w Hstep)
      as (w1 & result & Hexec & Hit & ->).
    specialize (Hit Hkeep). rewrite Hit.
    pose proof (execute_step_messages _ _ _ _ Hlog Hexec) as Hmsgs.
    destruct (Z.leb_spec max_iterations (iteration (state w) + 1)) as [Hstop | Hgo].
    + exists (with_state incr_iteration w1), [result].
      cbn [with_state state incr_iteration iteration messages length].
      repeat split; lia.
    + destruct (IH (acc ++ [result]) (with_state incr_iteration w1))
        as (w' & results & -> & Hcount & Hlen & Hm).
      cbn [with_state state incr_iteration iteration messages] in Hcount, Hlen, Hm.
      exists w', (result :: results).
      rewrite <- app_assoc. cbn [app length].
      repeat split; lia.
Qed.

(** X22.  With workers that leave the iteration counter alone and log
    no message of their own, the summary of a run is bounded by the
    ceiling: [total_iterations] is the iteration counter of the
    reported state, between 0 and max(1, N), and [messages_exchanged]
    is its number of messages, at most two per iteration. *)
Theorem reported_summary_is_bounded task ctx (w : @World Env) :
  keeps_iteration o →
  workers_log_nothing o →
  ∃ w' report summary st,
    MultiAgentSystem_execute json_loads py_repr max_iterations o task ctx w
    = (w', inr report) ∧
    report_summary report = Some summary ∧
    report_state report = Some st ∧
    dict_get "total_iterations" summary = Some (PInt (iteration st)) ∧
    dict_get "messages_exchanged" summary
    = Some (PInt (Z.of_nat (length (messages st)))) ∧
    0 ≤ iteration st ≤ Z.max 1 max_iterations ∧
    Z.of_nat (length (messages st)) ≤ 2 * iteration st.
Proof.
  intros Hkeep Hlog.
  destruct (system_execute_report json_loads py_repr max_iterations o task ctx w)
    as (w1 & result & Hexec & Hrun).
  cbv zeta in Hrun. rewrite Hrun. clear Hrun.
  eexists _, _, _, _. split; [reflexivity |].
  cbn [report_summary report_state]. split; [reflexivity |].
  split; [reflexivity |]. split; [reflexivity |]. split; [reflexivity |].
  destruct (start_run_state ctx w) as (w0 & Hstart & Hm0 & _ & _ & Hit0 & _).
  rewrite Hstart in Hexec. cbn [fst] in Hexec.
  assert (state w1 = state w0 ∨
          ∃ u1 plan u2 results,
            _create_plan json_loads o task w0 = (u1, inr plan) ∧
            state u1 = state w0 ∧
            run_steps py_repr max_iterations o plan [] u1 = (u2, inr results) ∧
            state w1 = state u2) as Hcases.
  { unfold Orchestrator_execute, try_except, orchestrate, mbind, M_bind in Hexec.
    pose proof (keeps_create_plan json_loads o (λ st, st = state w0) task w0 eq_refl)
      as Hp.
    destruct (_create_plan json_loads o task w0) as [u1 [e|plan]] eqn:Eplan;
      cbn [fst] in Hp.
    { left. unfold format_result in Hexec. by injection Hexec as <- _. }
    destruct (run_steps py_repr max_iterations o plan [] u1)
      as [u2 [e|results]] eqn:Eloop.
    { exfalso.
      pose proof (create_plan_string_agents json_loads o task w0 u1 plan Eplan)
        as Hstr.
      assert (Forall has_agent plan) as Hhas
        by (eapply Forall_impl; [exact Hstr | apply string_agent_has_agent]).
      destruct (run_steps_related py_repr max_iterations o (λ _ _, True) plan
                  (λ _ _ _ _ _, I) Hhas [] u1) as (? & ? & Hr & _).
      congruence. }
    right. exists u1, plan, u2, results.
    split; [done |]. split; [done |]. split; [done |].
    pose proof (keeps_synthesize_results py_repr o (λ st, st = state u2)
                  task plan results u2 eq_refl) as Hs.
    destruct (_synthesize_results py_repr o task plan results u2)
      as [u3 [e|text]]; cbn [fst] in Hs.
    { unfold format_result in Hexec. by injection Hexec as <- _. }
    unfold lift, format_result in Hexec.
    destruct (agents_used py_repr plan); by injection Hexec as <- _. }
  destruct Hcases as [-> | (u1 & plan & u2 & results & Hplan & Hu1 & Hloop & ->)].
  - rewrite Hit0, Hm0. cbn. lia.
  - pose proof (create_plan_string_agents json_loads o task w0 u1 plan Hplan) as Hstr.
    assert (Forall has_agent plan) as Hhas
      by (eapply Forall_impl; [exact Hstr | apply string_agent_has_agent]).
    destruct (run_steps_messages plan Hkeep Hlog Hhas [] u1)
      as (u2' & results' & Hrun & Hit & Hlen & Hmsgs).
    cbn [app] in Hrun. rewrite Hloop in Hrun. injection Hrun as <- <-.
    rewrite Hu1, Hit0 in Hit, Hlen. rewrite Hu1, Hm0 in Hmsgs.
    cbn [length] in Hmsgs. lia.
Qed.

End Bounds.

(** ** The properties above on concrete runs *)

Lemma five_workers_log_nothing (c : option (@Client unit)) :
  workers_log_nothing (Sample.orchestrator c Sample.five_workers).
Proof.
  intros id agent action st env H. cbn in H.
  repeat lazymatch type of H with
         | (if ?b then _ else _) = _ => destruct b; [by injection H as <- |]
         end.
  discriminate.
Qed.

Lemma declining_never_succeeds :
  never_succeeds (Sample.lone Sample.research_declining).
Proof.
  intros id agent action st env st' env' result H. cbn in H.
  destruct (id =? "research")%string; [| discriminate].
  injection H as <-. by intros [= _ _ <-].
Qed.

Lemma reported_state_is_accounted_for_witness :
  ∃ w' report st,
    MultiAgentSystem_execute Sample.loads Sample.repr 10
      (Sample.planner "An integrated answer")
      "Build a REST API for a todo app" None (Sample.world new_state)
    = (w', inr report) ∧
    report_state report = Some st ∧
    st = state w' ∧
    audit_consistent st.
Proof.
  apply (reported_state_is_accounted_for Sample.loads Sample.repr 10
           (Sample.planner "An integrated answer")).
  apply five_workers_preserve.
Defined.

Lemma orchestration_only_appends_witness :
  messages (state (Sample.world (add_message
                                   (new_message "user" "orchestrator"
                                      (PStr "hello") "task" PNone) new_state)))
  `prefix_of`
  messages (state (Orchestrator_execute Sample.loads Sample.repr 10
                     (Sample.planner "An integrated answer")
                     "Build a REST API for a todo app"
                     (Sample.world (add_message
                                      (new_message "user" "orchestrator"
                                         (PStr "hello") "task" PNone)
                                      new_state))).1).
Proof.
  refine (proj1 (orchestration_only_appends Sample.loads Sample.repr 10
                   (Sample.planner "An integrated answer")
                   "Build a REST API for a todo app" _ _)).
  intros id agent action st env H. cbn in H.
  repeat lazymatch type of H with
         | (if ?b then _ else _) = _ => destruct b; [by injection H as <- |]
         end.
  discriminate.
Defined.

Lemma no_client_fails_before_any_step_witness :
  ∃ w' report st,
    MultiAgentSystem_execute Sample.loads Sample.repr 10
      (Sample.orchestrator None Sample.five_workers)
      "Plan a trip to Paris" None (Sample.world new_state) = (w', inr report) ∧
    report_success report = PBool false ∧
    report_error report = PStr "Orchestrator: OpenAI client not available" ∧
    report_output report = PNone ∧
    report_state report = Some st ∧
    messages st = [] ∧ results st = ∅ ∧ iteration st = 0 ∧
    requests w' = [].
Proof.
  apply (no_client_fails_before_any_step Sample.loads Sample.repr 10
           (Sample.orchestrator None Sample.five_workers)
           "Plan a trip to Paris" None (Sample.world new_state)).
  - reflexivity.
  - apply match_template_none. reflexivity.
Defined.

Lemma planned_run_fails_only_in_synthesis_witness :
  Forall string_agent
    [ mk_step "code" "generate_code"; mk_step "code" "write_tests";
      mk_step "qa" "code_review"; mk_step "writing" "create_documentation" ].
Proof.
  exact (proj1 (planned_run_fails_only_in_synthesis Sample.loads Sample.repr 10
                  (Sample.planner "An integrated answer")
                  "Build a REST API for a todo app" (Sample.world new_state)
                  (Sample.world new_state) _ eq_refl)).
Defined.

Lemma run_succeeds_when_every_step_fails_witness :
  ∃ w' report,
    MultiAgentSystem_execute Sample.loads Sample.repr 10
      (Sample.lone Sample.research_declining)
      "Research the market" None (Sample.world new_state) = (w', inr report) ∧
    report_success report = PBool true ∧
    report_output report = PStr "No successful outputs from agents." ∧
    report_error report = PNone ∧
    requests w' = [].
Proof.
  apply (run_succeeds_when_every_step_fails Sample.loads Sample.repr 10
           (Sample.lone Sample.research_declining)
           "Research the market" None (Sample.world new_state)).
  - by eexists.
  - apply declining_never_succeeds.
Defined.

Lemma synthesis_reports_successes_witness :
  ∃ outs,
    collect_outputs Sample.repr (Sample.planner "An integrated answer")
      [ mk_step "research" "gather_information"; mk_step "writing" "create_report" ]
      [ Sample.result "research" "Research Agent" PNone false (PStr "search failed");
        Sample.result "writing" "Writing Agent" (PStr "A report") true PNone ]
    = inr outs ∧
    length outs = 1%nat.
Proof.
  eexists. split; [reflexivity |].
  exact (proj1 (synthesis_reports_successes Sample.repr
                  (Sample.planner "An integrated answer") "Research the market"
                  [ mk_step "research" "gather_information";
                    mk_step "writing" "create_report" ]
                  [ Sample.result "research" "Research Agent" PNone false
                      (PStr "search failed");
                    Sample.result "writing" "Writing Agent" (PStr "A report")
                      true PNone ]
                  _ (Sample.world new_state) eq_refl)).
Defined.


Lemma unregistered_worker_costs_an_iteration_witness :
  _execute_step Sample.repr Sample.code_only
    (mk_step "research" "gather_information") (Sample.world new_state)
  = (Sample.world new_state,
     inr [ ("success", PBool false);
           ("error", PStr "Agent 'research' not available") ]).
Proof.
  exact (proj1 (unregistered_worker_costs_an_iteration Sample.repr 10
                  Sample.code_only (mk_step "research" "gather_information")
                  [] [] "research" (Sample.world new_state) eq_refl eq_refl)).
Defined.

Lemma reported_summary_is_bounded_witness :
  ∃ w' report summary st,
    MultiAgentSystem_execute Sample.loads Sample.repr 2
      (Sample.planner "An integrated answer")
      "Build a REST API for a todo app" None (Sample.world new_state)
    = (w', inr report) ∧
    report_summary report = Some summary ∧
    report_state report = Some st ∧
    dict_get "total_iterations" summary = Some (PInt (iteration st)) ∧
    dict_get "messages_exchanged" summary
    = Some (PInt (Z.of_nat (length (messages st)))) ∧
    0 ≤ iteration st ≤ Z.max 1 2 ∧
    Z.of_nat (length (messages st)) ≤ 2 * iteration st.
Proof.
  apply (reported_summary_is_bounded Sample.loads Sample.repr 2
           (Sample.planner "An integrated answer")).
  - apply five_workers_keep_iteration.
  - apply five_workers_log_nothing.
Defined.
